(** * GIS Project Starter: boundary resolution and clipping

    A shallow embedding of [main.py]: the state resolver, the boundary
    builders, the clip routine and the orchestrating [main], followed by
    the properties the specification states about them.

    Conventions of the embedding.
    - Python [str] values are Rocq strings; the case, digit and whitespace
      tests follow the ASCII rules of [str.lower], [str.upper],
      [str.isdigit] and [str.strip] (code points above 127 are treated as
      uncased non-digit non-space characters).
    - A [GeoDataFrame] is its CRS tag and its rows in order; a row is its
      attribute values by column name and its geometry.  A column the row
      has no value for reads as a null.
    - The geometry engine (GEOS behind geopandas) is an interface,
      [Geometry]; its operations are total functions.
    - Vector datasets on disk are a finite map from path to frame; the
      console is the list of lines still to be read and the lines printed.
    - Python exceptions are values of [exn]; a computation returns a
      [result] together with the world it leaves behind, so effects made
      before a [raise] persist. *)

From Stdlib Require Import Ascii.
From stdpp Require Import base option list strings gmap fin_maps pretty.

(** ** Python string operations *)

Module Py.

Definition lower_char (c : ascii) : ascii :=
  let n := nat_of_ascii c in
  if (65 <=? n) && (n <=? 90) then ascii_of_nat (n + 32) else c.

Definition upper_char (c : ascii) : ascii :=
  let n := nat_of_ascii c in
  if (97 <=? n) && (n <=? 122) then ascii_of_nat (n - 32) else c.

Fixpoint lower (s : string) : string :=
  match s with
  | EmptyString => EmptyString
  | String c s' => String (lower_char c) (lower s')
  end.

Fixpoint upper (s : string) : string :=
  match s with
  | EmptyString => EmptyString
  | String c s' => String (upper_char c) (upper s')
  end.

(** [str.isspace] on one ASCII character: tab, newline, vertical tab,
    form feed, carriage return, the four separators 28..31 and space. *)
Definition isspace_char (c : ascii) : bool :=
  let n := nat_of_ascii c in
  ((9 <=? n) && (n <=? 13)) || ((28 <=? n) && (n <=? 32)).

Definition isdigit_char (c : ascii) : bool :=
  let n := nat_of_ascii c in
  (48 <=? n) && (n <=? 57).

Fixpoint lstrip (s : string) : string :=
  match s with
  | EmptyString => EmptyString
  | String c s' => if isspace_char c then lstrip s' else s
  end.

Definition rstrip (s : string) : string :=
  String.rev (lstrip (String.rev s)).

Definition strip (s : string) : string := rstrip (lstrip s).

Fixpoint all_chars (p : ascii → bool) (s : string) : bool :=
  match s with
  | EmptyString => true
  | String c s' => p c && all_chars p s'
  end.

(** [str.isdigit]: at least one character, and every character a digit. *)
Definition isdigit (s : string) : bool :=
  match s with
  | EmptyString => false
  | _ => all_chars isdigit_char s
  end.

Definition len (s : string) : nat := String.length s.

Fixpoint zeros (n : nat) : string :=
  match n with
  | O => EmptyString
  | S n' => String "0"%char (zeros n')
  end.

(** [str.zfill]: pad on the left with zeros up to [width]; a leading sign
    stays in front of the padding. *)
Definition zfill (width : nat) (s : string) : string :=
  if width <=? len s then s
  else match s with
       | String c s' =>
           if Ascii.eqb c "+"%char || Ascii.eqb c "-"%char
           then String c (zeros (width - len s) +:+ s')
           else zeros (width - len s) +:+ s
       | EmptyString => zeros width
       end.

Definition startswith (s p : string) : bool := String.prefix p s.

Definition endswith (s p : string) : bool :=
  String.prefix (String.rev p) (String.rev s).

(** The slice [s[:n]]. *)
Definition take (n : nat) (s : string) : string := String.substring 0 n s.

(** [str(x)] of an attribute value: a null prints as [None]. *)
Definition str (v : option string) : string := default "None" v.

End Py.

(** ** [os.path] on POSIX paths *)

Module OsPath.

Definition join (a b : string) : string :=
  if Py.startswith b "/" then b
  else if String.eqb a "" || Py.endswith a "/" then a +:+ b
  else a +:+ "/" +:+ b.

End OsPath.

(** ** Exceptions and results *)

Inductive exn :=
  | ValueError (msg : string)
  | FileNotFoundError (msg : string)
  | DataSourceError (msg : string)
  | HTTPError (msg : string)
  | BadZipFile (msg : string)
  | EOFError (msg : string).

(** [str(e)] *)
Definition exn_str (e : exn) : string :=
  match e with
  | ValueError m | FileNotFoundError m | DataSourceError m
  | HTTPError m | BadZipFile m | EOFError m => m
  end.

Inductive result (A : Type) :=
  | Ok (a : A)
  | Raise (e : exn).
Arguments Ok {A} a.
Arguments Raise {A} e.

Definition is_ok {A} (r : result A) : bool :=
  match r with Ok _ => true | Raise _ => false end.

(** ** The geometry engine *)

Class Geometry := {
  geom : Type;
  (** the type name shapely reports: Polygon, MultiPolygon, LineString, ... *)
  geom_type : geom → string;
  intersects : geom → geom → bool;
  intersection : geom → geom → geom;
  unary_union : list geom → geom;
  (** [transform src dst g]: [g] reprojected from CRS [src] to CRS [dst] *)
  transform : string → string → geom → geom;
}.

(** ** Feature collections *)

Record Feature `{Geometry} := {
  attrs : gmap string string;
  geometry : geom;
}.

Record GeoDataFrame `{Geometry} := {
  crs : option string;
  rows : list Feature;
}.

(** ** The platform: archives, directories, network, runtime rendering *)

Class Platform `{Geometry} := {
  (** zip archives and directory listings on disk, and the network *)
  os_state : Type;
  (** [os.path.exists] on the path of a downloaded archive *)
  os_path_exists : string → os_state → bool;
  (** [requests.get(url)], [raise_for_status()], body written to the path *)
  http_download : string → string → os_state → result () * os_state;
  (** [ZipFile(zip_path).extractall(folder)]: may add datasets to the disk *)
  zip_extractall : string → string →
    os_state → gmap string GeoDataFrame →
    result () * os_state * gmap string GeoDataFrame;
  (** [os.walk(folder)] as the list of (root, files) it yields *)
  os_walk : string → os_state → gmap string GeoDataFrame →
    list (string * list string);
  (** how an f-string renders a set of strings (element order is up to
      the interpreter) *)
  repr_set : gset string → string;
  os_path_abspath : string → string;
}.

Record World `{Platform} := {
  disk : gmap string GeoDataFrame;
  os : os_state;
  stdin : list string;
  stdout : list string;
}.

(** ** Computations: a result and the world left behind *)

Definition M `{Platform} (A : Type) : Type := World → result A * World.

Section Monad.
Context `{Platform}.

Definition ret {A} (a : A) : M A := λ w, (Ok a, w).

Definition bind {A B} (k : A → M B) (m : M A) : M B := λ w,
  match m w with
  | (Ok a, w') => k a w'
  | (Raise e, w') => (Raise e, w')
  end.

(** [x ← m; k] and [m;; k] below are [bind]. *)
#[global] Instance M_ret : MRet M := @ret.
#[global] Instance M_bind : MBind M := @bind.

Definition raise {A} (e : exn) : M A := λ w, (Raise e, w).

(** a pure computation that may raise *)
Definition lift {A} (r : result A) : M A := λ w, (r, w).

(** [try: m  except Exception as e: h e] *)
Definition try_except {A} (m : M A) (h : exn → M A) : M A := λ w,
  match m w with
  | (Ok a, w') => (Ok a, w')
  | (Raise e, w') => h e w'
  end.

Definition print (line : string) : M () := λ w,
  (Ok (), {| disk := disk w; os := os w; stdin := stdin w;
             stdout := stdout w ++ [line] |}).

(** [input(prompt)]: the prompt goes to the console, the next line is
    consumed; at end of input Python raises [EOFError]. *)
Definition input (prompt : string) : M string := λ w,
  let w' := {| disk := disk w; os := os w; stdin := tail (stdin w);
               stdout := stdout w ++ [prompt] |} in
  match stdin w with
  | line :: _ => (Ok line, w')
  | [] => (Raise (EOFError "EOF when reading a line"), w')
  end.

(** [gpd.read_file(path)] *)
Definition read_file (path : string) : M GeoDataFrame := λ w,
  match disk w !! path with
  | Some gdf => (Ok gdf, w)
  | None => (Raise (DataSourceError (path +:+ ": No such file or directory")), w)
  end.

(** [gdf.to_file(path)] *)
Definition to_file (gdf : GeoDataFrame) (path : string) : M () := λ w,
  (Ok (), {| disk := <[path := gdf]> (disk w); os := os w;
             stdin := stdin w; stdout := stdout w |}).

End Monad.

(** ** Configuration *)

Definition nl : string := String (ascii_of_nat 10) EmptyString.

Definition BASE_URL : string := "https://www2.census.gov/geo/tiger/TIGER2020".

Definition LAYER_URLS : gmap string string :=
  {[ "states" := BASE_URL +:+ "/STATE/tl_2020_us_state.zip";
     "counties" := BASE_URL +:+ "/COUNTY/tl_2020_us_county.zip" ]}.

Definition PROJECT_FOLDER : string := "GIS_Project_Starter".
Definition DOWNLOAD_FOLDER : string := OsPath.join PROJECT_FOLDER "downloads".
Definition CLIPPED_FOLDER : string := OsPath.join PROJECT_FOLDER "clipped".

(** ** Frame operations (pandas / geopandas) *)

Section Frames.
Context `{Geometry}.

(** [row[k]]: the value of column [k], [None] for a null *)
Definition col (k : string) (r : Feature) : option string := attrs r !! k.

(** [gdf[mask]]: the rows satisfying the mask, in order *)
Definition select (mask : Feature → Prop) `{∀ r, Decision (mask r)}
    (gdf : GeoDataFrame) : GeoDataFrame :=
  {| crs := crs gdf; rows := filter mask (rows gdf) |}.

(** [gdf.empty] *)
Definition empty (gdf : GeoDataFrame) : bool :=
  match rows gdf with [] => true | _ => false end.

(** [gdf.dissolve().reset_index(drop=True)]: all rows merge into one
    whose geometry is their union and whose attributes are, per column,
    the first non-null value. *)
Definition dissolve (gdf : GeoDataFrame) : GeoDataFrame :=
  match rows gdf with
  | [] => gdf
  | _ =>
      {| crs := crs gdf;
         rows := [ {| attrs := ⋃ (attrs <$> rows gdf);
                      geometry := unary_union (geometry <$> rows gdf) |} ] |}
  end.

Definition with_geometry (f : geom → geom) (r : Feature) : Feature :=
  {| attrs := attrs r; geometry := f (geometry r) |}.

(** [gdf.to_crs(target)] *)
Definition to_crs (target : option string) (gdf : GeoDataFrame)
    : result GeoDataFrame :=
  match crs gdf, target with
  | None, _ =>
      Raise (ValueError ("Cannot transform naive geometries.  " +:+
                         "Please set a crs on the object first."))
  | Some _, None => Raise (ValueError "Must pass either crs or epsg.")
  | Some src, Some dst =>
      Ok {| crs := Some dst;
            rows := with_geometry (transform src dst) <$> rows gdf |}
  end.

(** [gpd.clip(gdf, mask)]: the rows of [gdf] that meet the union of the
    mask's geometries, each cut down to its part inside it; CRS and
    attributes are those of [gdf]. *)
Definition gpd_clip (gdf mask : GeoDataFrame) : GeoDataFrame :=
  let combined := unary_union (geometry <$> rows mask) in
  {| crs := crs gdf;
     rows := with_geometry (λ g, intersection g combined) <$>
               filter (λ r, intersects (geometry r) combined) (rows gdf) |}.

(** [set(gdf.geom_type.unique())] *)
Definition geom_types (gdf : GeoDataFrame) : gset string :=
  list_to_set ((λ r, geom_type (geometry r)) <$> rows gdf).

Definition polygonish : gset string := {[ "Polygon"; "MultiPolygon" ]}.
Definition lineish : gset string := {[ "LineString"; "MultiLineString" ]}.
Definition pointish : gset string := {[ "Point"; "MultiPoint" ]}.

(** The geometry family kept after a clip, decided on the layer as it
    was before the clip. *)
Definition allowed_types (base : GeoDataFrame) : gset string :=
  let geom_types := geom_types base in
  if decide (geom_types ⊆ polygonish) then polygonish
  else if decide (geom_types ⊆ lineish) then lineish
  else if decide (geom_types ⊆ pointish) then pointish
  else geom_types.

(** [gdf[gdf.geometry.type.isin(allowed)]] *)
Definition type_isin (allowed : gset string) (r : Feature) : Prop :=
  geom_type (geometry r) ∈ allowed.

#[global] Instance type_isin_dec allowed r : Decision (type_isin allowed r) :=
  decide (geom_type (geometry r) ∈ allowed).

(** ** The state resolver *)

Definition name_is (text : string) (r : Feature) : Prop :=
  Py.lower <$> col "NAME" r = Some (Py.lower text).

Definition code_is (text : string) (r : Feature) : Prop :=
  Py.upper <$> col "STUSPS" r = Some (Py.upper text).

#[global] Instance name_is_dec text r : Decision (name_is text r) :=
  decide (Py.lower <$> col "NAME" r = Some (Py.lower text)).

#[global] Instance code_is_dec text r : Decision (code_is text r) :=
  decide (Py.upper <$> col "STUSPS" r = Some (Py.upper text)).

Definition unresolved_state (user_input : string) : exn :=
  ValueError ("Could not resolve state '" +:+ user_input +:+ "'. " +:+
              "Use full name (e.g., Texas) or 2-letter code (e.g., TX).").

Definition resolve_state_fips (states_gdf : GeoDataFrame)
    (user_input : string) : result string :=
  let text := Py.strip user_input in
  let subset := select (name_is text) states_gdf in
  match rows subset with
  | r :: _ => Ok (Py.zfill 2 (Py.str (col "STATEFP" r)))
  | [] =>
      let subset := select (code_is text) states_gdf in
      match rows subset with
      | r :: _ => Ok (Py.zfill 2 (Py.str (col "STATEFP" r)))
      | [] => Raise (unresolved_state user_input)
      end
  end.

End Frames.

(** ** The program *)

Section Program.
Context `{Platform}.

(** *** Retrieval and extraction *)

Definition with_os (w : World) (s : os_state) : World :=
  {| disk := disk w; os := s; stdin := stdin w; stdout := stdout w |}.

Definition path_exists (path : string) : M bool := λ w,
  (Ok (os_path_exists path (os w)), w).

Definition requests_get_to (url path : string) : M () := λ w,
  let '(r, s) := http_download url path (os w) in (r, with_os w s).

Definition extractall (zip_path folder : string) : M () := λ w,
  let '(r, s, d) := zip_extractall zip_path folder (os w) (disk w) in
  (r, {| disk := d; os := s; stdin := stdin w; stdout := stdout w |}).

Definition walk (folder : string) : M (list (string * list string)) := λ w,
  (Ok (os_walk folder (os w) (disk w)), w).

Definition download_zip (name url : string) : M string :=
  let local_path := OsPath.join DOWNLOAD_FOLDER (name +:+ ".zip") in
  present ← path_exists local_path;
  if (present : bool) then
    print (name +:+ ": ZIP already exists, skipping download.");;
    mret local_path
  else
    print ("Downloading " +:+ name +:+ " from " +:+ url +:+ " ...");;
    requests_get_to url local_path;;
    print (name +:+ ": downloaded to " +:+ local_path);;
    mret local_path.

Fixpoint first_shp (root : string) (files : list string) : option string :=
  match files with
  | [] => None
  | f :: files' =>
      if Py.endswith (Py.lower f) ".shp" then Some (OsPath.join root f)
      else first_shp root files'
  end.

Fixpoint first_shp_in (walked : list (string * list string)) : option string :=
  match walked with
  | [] => None
  | (root, files) :: walked' =>
      match first_shp root files with
      | Some path => Some path
      | None => first_shp_in walked'
      end
  end.

Definition find_shapefile (folder : string) : M (option string) :=
  walked ← walk folder;
  mret (first_shp_in walked).

Definition unzip_zip (name zip_path : string) : M string :=
  let extract_folder := OsPath.join DOWNLOAD_FOLDER name in
  print ("Unzipping " +:+ zip_path +:+ " to " +:+ extract_folder +:+ " ...");;
  extractall zip_path extract_folder;;
  print (name +:+ ": unzip complete.");;
  shp_path ← find_shapefile extract_folder;
  match shp_path with
  | Some path =>
      if decide (path = "") then
        raise (FileNotFoundError
                 ("No .shp found in " +:+ extract_folder +:+ " for " +:+ name))
      else
        print (name +:+ ": using shapefile " +:+ path);;
        mret path
  | None =>
      raise (FileNotFoundError
               ("No .shp found in " +:+ extract_folder +:+ " for " +:+ name))
  end.

(** *** Boundary construction *)

Definition statefp_is (state_fips : string) (r : Feature) : Prop :=
  col "STATEFP" r = Some state_fips.

Definition geoid_is (value : string) (r : Feature) : Prop :=
  col "GEOID" r = Some value.

#[global] Instance statefp_is_dec fips r : Decision (statefp_is fips r) :=
  decide (col "STATEFP" r = Some fips).

#[global] Instance geoid_is_dec value r : Decision (geoid_is value r) :=
  decide (col "GEOID" r = Some value).

Definition no_state_found (boundary_value : string) : exn :=
  ValueError ("No state found for '" +:+ boundary_value +:+ "'.").

Definition invalid_fips : exn :=
  ValueError "County FIPS must be a 5-digit numeric code, e.g., 48113.".

Definition no_county_found (boundary_value : string) : exn :=
  ValueError ("No county found with FIPS '" +:+ boundary_value +:+ "'. " +:+
              "Use the 5-digit GEOID value.").

Definition unsupported_type : exn :=
  ValueError "build_boundary only supports 'state' or 'fips' here.".

Definition build_boundary
    (boundary_type boundary_value states_shp counties_shp : string)
    : M GeoDataFrame :=
  let boundary_type := Py.strip (Py.lower boundary_type) in
  let boundary_value := Py.strip boundary_value in
  if decide (boundary_type = "state") then
    states ← read_file states_shp;
    state_fips ← lift (resolve_state_fips states boundary_value);
    let boundary := select (statefp_is state_fips) states in
    if empty boundary then raise (no_state_found boundary_value)
    else
      let boundary := dissolve boundary in
      print ("Boundary: state '" +:+ boundary_value +:+ "' (STATEFP=" +:+
             state_fips +:+ "), features: " +:+ pretty (length (rows boundary)));;
      mret boundary
  else if decide (boundary_type = "fips") then
    if negb (Py.len boundary_value =? 5) || negb (Py.isdigit boundary_value)
    then raise invalid_fips
    else
      counties ← read_file counties_shp;
      let subset := select (geoid_is boundary_value) counties in
      if empty subset then raise (no_county_found boundary_value)
      else
        let boundary := dissolve subset in
        print ("Boundary: county GEOID=" +:+ boundary_value +:+
               ", features: " +:+ pretty (length (rows boundary)));;
        mret boundary
  else raise unsupported_type.

Definition place_is (city_name state_fips : string) (r : Feature) : Prop :=
  Py.lower <$> col "NAME" r = Some (Py.lower (Py.strip city_name))
  ∧ col "STATEFP" r = Some state_fips.

#[global] Instance place_is_dec city fips r : Decision (place_is city fips r) :=
  decide (Py.lower <$> col "NAME" r = Some (Py.lower (Py.strip city))
          ∧ col "STATEFP" r = Some fips).

Definition no_place_found (city_name state_input state_fips : string) : exn :=
  ValueError ("No place named '" +:+ city_name +:+ "' found in state '" +:+
              state_input +:+ "' " +:+ "(STATEFP=" +:+ state_fips +:+ ").").

Definition build_city_boundary (city_name state_input states_shp : string)
    : M GeoDataFrame :=
  states ← read_file states_shp;
  state_fips ← lift (resolve_state_fips states state_input);
  let place_url := BASE_URL +:+ "/PLACE/tl_2020_" +:+ state_fips +:+ "_place.zip" in
  let place_name := "places_" +:+ state_fips in
  zip_path ← download_zip place_name place_url;
  place_shp ← unzip_zip place_name zip_path;
  places ← read_file place_shp;
  let subset := select (place_is city_name state_fips) places in
  if empty subset then raise (no_place_found city_name state_input state_fips)
  else
    let boundary := dissolve subset in
    print ("Boundary: city '" +:+ city_name +:+ "' in state '" +:+
           state_input +:+ "' " +:+ "(STATEFP=" +:+ state_fips +:+
           "), features: " +:+ pretty (length (rows boundary)));;
    mret boundary.

(** *** Clipping *)

Definition missing_crs : exn := ValueError "CRS missing on base or boundary".

(** The boundary as it enters the intersection: reprojected into the
    layer's CRS when the two differ, as it is otherwise. *)
Definition align_crs (base boundary_gdf : GeoDataFrame)
    : result GeoDataFrame :=
  if decide (crs base ≠ crs boundary_gdf)
  then to_crs (crs base) boundary_gdf
  else Ok boundary_gdf.

Definition clip_layer_to_boundary (layer_shp : string)
    (boundary_gdf : GeoDataFrame) (output_path : string) : M () :=
  print ("Clipping " +:+ layer_shp +:+ " ...");;
  base ← read_file layer_shp;
  print ("  " +:+ layer_shp +:+ ": " +:+ pretty (length (rows base)) +:+
         " features before clip");;
  if decide (crs base = None ∨ crs boundary_gdf = None) then raise missing_crs
  else
    boundary ← lift (align_crs base boundary_gdf);
    let clipped := gpd_clip base boundary in
    print ("  " +:+ output_path +:+ ": " +:+ pretty (length (rows clipped)) +:+
           " features after clip (before geometry filter)");;
    (* Decide what geometry family to keep based on base layer *)
    let allowed := allowed_types base in
    let clipped := select (type_isin allowed) clipped in
    print ("  " +:+ output_path +:+ ": " +:+ pretty (length (rows clipped)) +:+
           " features after filtering to " +:+ repr_set allowed);;
    to_file clipped output_path;;
    print ("Saved clipped file: " +:+ output_path).

(** *** The pipeline *)

Inductive mode :=
  | ModeState (state_input : string)
  | ModeCity (city_name city_state : string)
  | ModeFips (fips_value : string).

Definition invalid_choice : exn :=
  ValueError "Invalid choice. Use 'state', 'city', or 'fips' (or 1/2/3).".

(** The prompts at the top of [main]. *)
Definition main_choose : M mode :=
  print ("=== GIS Project Starter (TIGER 2020, State / City / County FIPS) ===" +:+ nl);;
  print "Choose boundary type:";;
  print "  1) State  (by name or code, e.g., Texas or TX)";;
  print "  2) City   (requires city name AND state)";;
  print "  3) FIPS   (5-digit county FIPS, e.g., 48113)";;
  line ← input "Enter 'state', 'city', or 'fips' (or 1/2/3): ";
  let choice := Py.lower (Py.strip line) in
  if decide (choice ∈ ["1"; "state"]) then
    line ← input "Enter state name or 2-letter code (e.g., Texas or TX): ";
    mret (ModeState (Py.strip line))
  else if decide (choice ∈ ["2"; "city"]) then
    line1 ← input "Enter city/place name (e.g., Dallas): ";
    line2 ← input "Enter state name or code for that city (e.g., Texas or TX): ";
    mret (ModeCity (Py.strip line1) (Py.strip line2))
  else if decide (choice ∈ ["3"; "fips"]) then
    line ← input "Enter 5-digit county FIPS code (e.g., 48113): ";
    mret (ModeFips (Py.strip line))
  else raise invalid_choice.

(** Step 4 of [main]: each layer is clipped under its own handler. *)
Definition main_clip_layers (roads_shp counties_shp : string)
    (boundary : GeoDataFrame) : M () :=
  try_except
    (clip_layer_to_boundary roads_shp boundary
       (OsPath.join CLIPPED_FOLDER "roads_clipped.shp"))
    (λ e, print ("Error clipping roads: " +:+ exn_str e));;
  try_except
    (clip_layer_to_boundary counties_shp boundary
       (OsPath.join CLIPPED_FOLDER "counties_clipped.shp"))
    (λ e, print ("Error clipping counties: " +:+ exn_str e)).

Definition main : M () :=
  m ← main_choose;
  (* Step 1: Download + unzip national states, counties *)
  states_zip ← download_zip "states" (LAYER_URLS !!! "states");
  states_shp ← unzip_zip "states" states_zip;
  counties_zip ← download_zip "counties" (LAYER_URLS !!! "counties");
  counties_shp ← unzip_zip "counties" counties_zip;
  (* Step 2: determine STATEFP for roads (PRISECROADS) *)
  states_gdf ← read_file states_shp;
  state_fips ← match m with
               | ModeState state_input =>
                   lift (resolve_state_fips states_gdf state_input)
               | ModeCity _ city_state =>
                   lift (resolve_state_fips states_gdf city_state)
               | ModeFips fips_value => mret (Py.take 2 fips_value)
               end;
  let prisec_name := "prisecroads_" +:+ state_fips in
  let prisec_url := BASE_URL +:+ "/PRISECROADS/tl_2020_" +:+ state_fips +:+
                    "_prisecroads.zip" in
  roads_zip ← download_zip prisec_name prisec_url;
  roads_shp ← unzip_zip prisec_name roads_zip;
  (* Step 3: Build boundary *)
  '(boundary, boundary_type, boundary_value) ←
    match m with
    | ModeCity city_name city_state =>
        boundary ← build_city_boundary city_name city_state states_shp;
        to_file boundary (OsPath.join CLIPPED_FOLDER "city_boundary.shp");;
        mret (boundary, "city", city_name)
    | ModeState state_input =>
        boundary ← build_boundary "state" state_input states_shp counties_shp;
        mret (boundary, "state", state_input)
    | ModeFips fips_value =>
        boundary ← build_boundary "fips" fips_value states_shp counties_shp;
        mret (boundary, "fips", fips_value)
    end;
  print (nl +:+ "Using boundary type: " +:+ boundary_type +:+ ", value: " +:+
         boundary_value);;
  print ("Using state FIPS " +:+ state_fips +:+ " for PRISECROADS" +:+ nl);;
  (* Step 4: Clip roads + counties *)
  print ("Clipping layers to boundary..." +:+ nl);;
  main_clip_layers roads_shp counties_shp boundary;;
  print (nl +:+ "All done.");;
  print ("Clipped outputs saved in: " +:+ os_path_abspath CLIPPED_FOLDER).

End Program.

(** ** Notions used in the statements *)

Section Notions.
Context `{Geometry}.

(** [a] is a case variant of [b] *)
Definition case_variant (a b : string) : Prop := Py.lower a = Py.lower b.

Definition name_keys (gdf : GeoDataFrame) : list string :=
  omap (λ r, Py.lower <$> col "NAME" r) (rows gdf).

Definition code_keys (gdf : GeoDataFrame) : list string :=
  omap (λ r, Py.upper <$> col "STUSPS" r) (rows gdf).

Definition is_texas (r : Feature) : Prop :=
  col "NAME" r = Some "Texas" ∧ col "STUSPS" r = Some "TX"
  ∧ col "STATEFP" r = Some "48".

(** A correctly loaded reference state dataset: no two records share a
    name or a postal code (case aside), no name is some record's postal
    code, and Texas is there as (Texas, TX, 48). *)
Definition reference_states (gdf : GeoDataFrame) : Prop :=
  NoDup (name_keys gdf) ∧ NoDup (code_keys gdf)
  ∧ Forall (λ k, k ∉ Py.lower <$> code_keys gdf) (name_keys gdf)
  ∧ Exists is_texas (rows gdf).

#[global] Instance reference_states_dec gdf : Decision (reference_states gdf).
Proof. unfold reference_states, is_texas. apply _. Defined.

(** [boundary] is one feature, the union of [matched] *)
Definition single_union (boundary : GeoDataFrame) (matched : list Feature)
    : Prop :=
  matched ≠ [] ∧
  ∃ f, rows boundary = [f]
       ∧ geometry f = unary_union (geometry <$> matched).

Definition polygonal (r : Feature) : Prop :=
  geom_type (geometry r) = "Polygon" ∨ geom_type (geometry r) = "MultiPolygon".

(** the engine's union of polygons and multi-polygons is one of the two *)
Definition union_keeps_polygons : Prop :=
  ∀ gs : list geom, gs ≠ [] →
    Forall (λ g, geom_type g ∈ polygonish) gs →
    geom_type (unary_union gs) ∈ polygonish.

End Notions.

Section Retrieval.
Context `{Platform}.

(** The retrieval of a state's place file inside [build_city_boundary]:
    download, then unzip; the result is the path of the place dataset. *)
Definition fetch_places (state_fips : string) : M string :=
  zip_path ← download_zip ("places_" +:+ state_fips)
               (BASE_URL +:+ "/PLACE/tl_2020_" +:+ state_fips +:+ "_place.zip");
  unzip_zip ("places_" +:+ state_fips) zip_path.

End Retrieval.

(** ** A small geometry engine and platform to run the program on

    Shapes live on a line of unit cells.  A shape has a dimension and a
    list of parts, each part a list of cells.  It is enough to execute the
    definitions above on concrete layers. *)

Module Grid.

Inductive dim := Pt | Ln | Pg.

Record shape := { sdim : dim; parts : list (list Z) }.

Definition cells (s : shape) : list Z := concat (parts s).

Definition type_name (s : shape) : string :=
  match sdim s, parts s with
  | Pg, ([] | [_]) => "Polygon"
  | Pg, _ => "MultiPolygon"
  | Ln, ([] | [_]) => "LineString"
  | Ln, _ => "MultiLineString"
  | Pt, ([] | [_]) => "Point"
  | Pt, _ => "MultiPoint"
  end.

Definition meets (a b : shape) : bool :=
  existsb (λ c, bool_decide (c ∈ cells b)) (cells a).

(** the parts of [a] cut down to the cells of [b]; emptied parts vanish *)
Definition cut (a b : shape) : shape :=
  {| sdim := sdim a;
     parts := List.filter (λ p, negb (bool_decide (p = [])))
                ((λ p : list Z, List.filter (λ c, bool_decide (c ∈ cells b)) p)
                   <$> parts a) |}.

Definition dim_max (a b : dim) : dim :=
  match a, b with
  | Pg, _ | _, Pg => Pg
  | Ln, _ | _, Ln => Ln
  | Pt, Pt => Pt
  end.

Definition union (gs : list shape) : shape :=
  {| sdim := foldr (λ g d, dim_max (sdim g) d) Pt gs;
     parts := concat (parts <$> gs) |}.

(** every CRS has its origin; reprojecting re-expresses the cells *)
Definition origin (crs : string) : Z := Z.of_nat (String.length crs).

Definition reproject (src dst : string) (s : shape) : shape :=
  {| sdim := sdim s;
     parts := (λ p : list Z, (λ c, c + origin src - origin dst)%Z <$> p)
                <$> parts s |}.

Definition geometry_engine : Geometry :=
  {| geom := shape; geom_type := type_name; intersects := meets;
     intersection := cut; unary_union := union; transform := reproject |}.

#[local] Existing Instance geometry_engine.

(** no archives, no network: every archive is already present and
    extraction leaves the disk as it is *)
Definition platform : Platform :=
  {| os_state := ();
     os_path_exists := λ _ _, true;
     http_download := λ _ _ s, (Ok (), s);
     zip_extractall := λ _ _ s d, (Ok (), s, d);
     os_walk := λ folder _ _, [(folder, ["layer.shp"])];
     repr_set := λ s, foldr (λ x acc, x +:+ " " +:+ acc) "" (elements s);
     os_path_abspath := λ p, "/" +:+ p |}.

#[local] Existing Instance platform.

Definition polygon (cs : list Z) : shape := {| sdim := Pg; parts := [cs] |}.
Definition multipolygon (ps : list (list Z)) : shape := {| sdim := Pg; parts := ps |}.
Definition line (cs : list Z) : shape := {| sdim := Ln; parts := [cs] |}.

Definition row (kvs : list (string * string)) (g : shape) : Feature :=
  {| attrs := list_to_map kvs; geometry := g |}.

Definition world (files : list (string * GeoDataFrame)) : World :=
  {| disk := list_to_map files; os := (); stdin := []; stdout := [] |}.

(** *** Reference data *)

Definition texas : Feature :=
  row [("NAME", "Texas"); ("STUSPS", "TX"); ("STATEFP", "48")]
      (polygon [10; 11; 12; 13; 14; 15]%Z).
Definition ohio : Feature :=
  row [("NAME", "Ohio"); ("STUSPS", "OH"); ("STATEFP", "39")]
      (polygon [30; 31; 32]%Z).
Definition alaska : Feature :=
  row [("NAME", "Alaska"); ("STUSPS", "AK"); ("STATEFP", "02")]
      (multipolygon [[50; 51]; [53]]%Z).

Definition states : GeoDataFrame :=
  {| crs := Some "EPSG:4269"; rows := [alaska; ohio; texas] |}.

(** a states file in which two records carry the name Texas *)
Definition texas_twin : Feature :=
  row [("NAME", "Texas"); ("STUSPS", "TY"); ("STATEFP", "99")]
      (polygon [70; 71]%Z).
Definition states_twice : GeoDataFrame :=
  {| crs := Some "EPSG:4269"; rows := [texas; texas_twin; ohio] |}.

(** a states file in which one record's name is another's postal code *)
Definition coded_oh : Feature :=
  row [("NAME", "Xx"); ("STUSPS", "OH"); ("STATEFP", "1")] (polygon [1]%Z).
Definition named_oh : Feature :=
  row [("NAME", "Oh"); ("STUSPS", "ZZ"); ("STATEFP", "2")] (polygon [2]%Z).
Definition states_clash : GeoDataFrame :=
  {| crs := Some "EPSG:4269"; rows := [coded_oh; named_oh] |}.

Definition dallas : Feature :=
  row [("NAME", "Dallas"); ("GEOID", "48113"); ("STATEFP", "48")]
      (polygon [11; 12]%Z).
Definition dallas_again : Feature :=
  row [("NAME", "Dallas"); ("GEOID", "48113"); ("STATEFP", "48")]
      (polygon [12; 13]%Z).
Definition harris : Feature :=
  row [("NAME", "Harris"); ("GEOID", "48201"); ("STATEFP", "48")]
      (polygon [14; 15]%Z).
Definition franklin : Feature :=
  row [("NAME", "Franklin"); ("GEOID", "39049"); ("STATEFP", "39")]
      (polygon [31]%Z).

Definition counties : GeoDataFrame :=
  {| crs := Some "EPSG:4269";
     rows := [dallas; harris; dallas_again; franklin] |}.

(** a county file whose record for 48113 is a line *)
Definition county_outline : Feature :=
  row [("NAME", "Dallas"); ("GEOID", "48113"); ("STATEFP", "48")]
      (line [11; 12]%Z).
Definition counties_outlines : GeoDataFrame :=
  {| crs := Some "EPSG:4269"; rows := [county_outline] |}.

Definition road_inside : Feature := row [("FULLNAME", "I-35")] (line [11; 12; 13]%Z).
Definition road_outside : Feature := row [("FULLNAME", "I-71")] (line [30; 31]%Z).
Definition road_crossing : Feature := row [("FULLNAME", "US-75")] (line [14; 15; 16; 17]%Z).

Definition roads : GeoDataFrame :=
  {| crs := Some "EPSG:4269";
     rows := [road_inside; road_outside; road_crossing] |}.

Definition roads_untagged : GeoDataFrame :=
  {| crs := None; rows := rows roads |}.

(** a layer mixing a two-part polygon with a line *)
Definition islands : Feature :=
  row [("NAME", "Islands")] (multipolygon [[12; 13]; [40; 41]]%Z).
Definition mixed : GeoDataFrame :=
  {| crs := Some "EPSG:4269"; rows := [islands; road_inside] |}.

(** the Texas boundary as [build_boundary] returns it, and the same
    area tagged with another CRS *)
Definition texas_boundary : GeoDataFrame :=
  {| crs := Some "EPSG:4269"; rows := [texas] |}.

(** the place file of state 48, where the platform above unpacks it;
    Dallas comes in two parts *)
Definition dallas_north : Feature :=
  row [("NAME", "Dallas"); ("STATEFP", "48")] (polygon [11]%Z).
Definition dallas_south : Feature :=
  row [("NAME", "Dallas"); ("STATEFP", "48")] (polygon [13]%Z).
Definition austin : Feature :=
  row [("NAME", "Austin"); ("STATEFP", "48")] (polygon [15]%Z).
Definition places : GeoDataFrame :=
  {| crs := Some "EPSG:4269"; rows := [dallas_north; austin; dallas_south] |}.
Definition places_shp : string :=
  OsPath.join (OsPath.join DOWNLOAD_FOLDER "places_48") "layer.shp".

Definition files : World :=
  world [("states.shp", states); ("counties.shp", counties);
         (places_shp, places);
         ("roads.shp", roads); ("mixed.shp", mixed);
         ("roads_untagged.shp", roads_untagged);
         ("outlines.shp", counties_outlines);
         ("states_twice.shp", states_twice)].

End Grid.

(** ** More notions used in the statements *)

(** the test [find_shapefile] makes on a file name *)
Definition is_shp (f : string) : bool := Py.endswith (Py.lower f) ".shp".

(** ** More sample data *)

Module Samples.

#[local] Existing Instance Grid.geometry_engine.
#[local] Existing Instance Grid.platform.

(** a states file whose codes were loaded without their leading zero *)
Definition alabama_short : Feature :=
  Grid.row [("NAME", "Alabama"); ("STUSPS", "AL"); ("STATEFP", "1")]
           (Grid.polygon [20; 21]%Z).
Definition states_short : GeoDataFrame :=
  {| crs := Some "EPSG:4269"; rows := [alabama_short; Grid.texas] |}.

Definition point (c : Z) : Grid.shape := {| Grid.sdim := Grid.Pt; Grid.parts := [[c]] |}.

Definition stop_inside : Feature := Grid.row [("NAME", "Union Station")] (point 12).
Definition stop_outside : Feature := Grid.row [("NAME", "Airport")] (point 31).
Definition stops : GeoDataFrame :=
  {| crs := Some "EPSG:4269"; rows := [stop_inside; stop_outside] |}.

(** a boundary that meets none of the sample layers *)
Definition far_boundary : GeoDataFrame :=
  {| crs := Some "EPSG:4269";
     rows := [Grid.row [("NAME", "Far")] (Grid.polygon [900; 901]%Z)] |}.

Definition files : World :=
  Grid.world [("states.shp", Grid.states); ("short.shp", states_short);
              ("counties.shp", Grid.counties); ("roads.shp", Grid.roads);
              ("stops.shp", stops)].

(** a machine with no archive on disk and no network; an extracted
    archive holds a readme and, in a subfolder, a shapefile with an
    upper-case suffix *)
Definition offline : Platform :=
  {| os_state := ();
     os_path_exists := λ _ _, false;
     http_download := λ url _ s, (Raise (HTTPError ("404 Client Error: " +:+ url)), s);
     zip_extractall := λ _ _ s d, (Ok (), s, d);
     os_walk := λ folder _ _,
       [(folder, ["readme.txt"]);
        (OsPath.join folder "data", ["notes.shp.xml"; "TL_STATE.SHP"; "b.shp"])];
     repr_set := λ s, foldr (λ x acc, x +:+ " " +:+ acc) "" (elements s);
     os_path_abspath := λ p, "/" +:+ p |}.

Definition offline_world : @World Grid.geometry_engine offline :=
  @Build_World Grid.geometry_engine offline ∅ () ["4"; "Texas"] [].

End Samples.

(** * Properties *)

(** ** Strings *)

Lemma upper_lower_char c : Py.upper_char (Py.lower_char c) = Py.upper_char c.
Proof. destruct c as [[] [] [] [] [] [] [] []]; reflexivity. Qed.

Lemma upper_lower s : Py.upper (Py.lower s) = Py.upper s.
Proof.
  induction s as [|c s IH]; simpl; [done|].
  by rewrite upper_lower_char, IH.
Qed.

Lemma zfill_length width s : width ≤ Py.len s → Py.zfill width s = s.
Proof.
  intros Hle. unfold Py.zfill.
  destruct (Nat.leb_spec width (Py.len s)); [done | lia].
Qed.

Lemma zeros_length n : String.length (Py.zeros n) = n.
Proof. induction n as [|n IH]; simpl; [done | by rewrite IH]. Qed.

Lemma string_app_length (a b : string) :
  String.length (a +:+ b) = String.length a + String.length b.
Proof. induction a as [|c a IH]; simpl; [done | by rewrite IH]. Qed.

Lemma zfill_wide width s : width ≤ Py.len (Py.zfill width s).
Proof.
  unfold Py.zfill, Py.len.
  destruct (Nat.leb_spec width (String.length s)) as [|Hlt]; [done|].
  destruct s as [|c s']; [by rewrite zeros_length|].
  destruct (_ || _); simpl in *;
    rewrite ?string_app_length, zeros_length; simpl; lia.
Qed.

(** ** The state resolver *)

Section Resolver.
Context `{Geometry}.
Implicit Types (states : GeoDataFrame) (r : Feature) (text : string).

Lemma resolve_by_name states text r rest :
  filter (name_is (Py.strip text)) (rows states) = r :: rest →
  resolve_state_fips states text = Ok (Py.zfill 2 (Py.str (col "STATEFP" r))).
Proof. intros Hf. unfold resolve_state_fips, select. simpl. by rewrite Hf. Qed.

Lemma resolve_by_code states text r rest :
  filter (name_is (Py.strip text)) (rows states) = [] →
  filter (code_is (Py.strip text)) (rows states) = r :: rest →
  resolve_state_fips states text = Ok (Py.zfill 2 (Py.str (col "STATEFP" r))).
Proof.
  intros Hn Hc. unfold resolve_state_fips, select. simpl. by rewrite Hn, Hc.
Qed.


(** the first element satisfying [P] heads the filtered list *)
Lemma filter_first {A} (P : A → Prop) `{∀ x, Decision (P x)} pre x post :
  Forall (λ y, ¬ P y) pre → P x →
  filter P (pre ++ x :: post) = x :: filter P post.
Proof.
  intros Hpre Hx. rewrite filter_app, filter_cons_True by done.
  induction Hpre as [|y pre Hy _ IH]; [done|].
  by rewrite filter_cons_False.
Qed.

Lemma filter_none {A} (P : A → Prop) `{∀ x, Decision (P x)} l :
  filter P l = [] ↔ Forall (λ y, ¬ P y) l.
Proof.
  rewrite Forall_forall. split.
  - intros Hf x Hx HP. by eapply filter_nil_not_elem_of.
  - intros Hall. destruct (filter P l) as [|x l'] eqn:Hf; [done|].
    assert (x ∈ filter P l) as Hx by (rewrite Hf; left).
    apply list_elem_of_filter in Hx as [HP Hx]. by destruct (Hall x).
Qed.


(** a key that occurs once among the keys of a list identifies its row *)
Lemma omap_key_unique {A K} (h : A → option K) (l : list A) x y k :
  NoDup (omap h l) → x ∈ l → y ∈ l → h x = Some k → h y = Some k → x = y.
Proof.
  induction l as [|z l IH]; intros Hnd Hx Hy Hhx Hhy.
  - by apply not_elem_of_nil in Hx.
  - apply elem_of_cons in Hx as [->|Hx], Hy as [->|Hy]; [done|..].
    + simpl in Hnd. rewrite Hhx in Hnd. apply NoDup_cons in Hnd as [Hnot _].
      destruct Hnot. apply list_elem_of_omap. eauto.
    + simpl in Hnd. rewrite Hhy in Hnd. apply NoDup_cons in Hnd as [Hnot _].
      destruct Hnot. apply list_elem_of_omap. eauto.
    + apply IH; try done. simpl in Hnd.
      destruct (h z); [by apply NoDup_cons in Hnd as [_ ?] | done].
Qed.

Lemma reference_texas_by_name states text :
  reference_states states → case_variant (Py.strip text) "Texas" →
  resolve_state_fips states text = Ok "48".
Proof.
  intros (Hnames & _ & _ & Htx) Hcv.
  apply Exists_exists in Htx as (tx & Htx & Hname & _ & Hfp).
  assert (name_is (Py.strip text) tx) as Hm.
  { unfold name_is. rewrite Hname, Hcv. done. }
  destruct (filter (name_is (Py.strip text)) (rows states)) as [|r rest] eqn:Hf.
  { by destruct (filter_nil_not_elem_of _ _ tx Hf Hm). }
  assert (r ∈ filter (name_is (Py.strip text)) (rows states)) as Hr
    by (rewrite Hf; left).
  apply list_elem_of_filter in Hr as [Hrm Hr].
  assert (r = tx) as ->.
  { eapply (omap_key_unique _ _ _ _ _ Hnames Hr Htx Hrm Hm). }
  erewrite resolve_by_name by done. by rewrite Hfp.
Qed.

Lemma reference_texas_by_code states text :
  reference_states states → case_variant (Py.strip text) "TX" →
  resolve_state_fips states text = Ok "48".
Proof.
  intros (_ & Hcodes & Hdisj & Htx) Hcv.
  apply Exists_exists in Htx as (tx & Htx & _ & Hcode & Hfp).
  assert (Py.upper (Py.strip text) = "TX") as Hup.
  { rewrite <- upper_lower, Hcv. done. }
  assert (code_is (Py.strip text) tx) as Hm.
  { unfold code_is. rewrite Hcode, Hup. done. }
  assert (filter (name_is (Py.strip text)) (rows states) = []) as Hn.
  { apply filter_none, Forall_forall. intros r Hr Hrm.
    rewrite Forall_forall in Hdisj. apply (Hdisj (Py.lower (Py.strip text))).
    - apply list_elem_of_omap. eauto.
    - rewrite Hcv. apply (list_elem_of_fmap_2' _ _ "TX"); [|done].
      apply list_elem_of_omap. exists tx. split; [done|]. by rewrite Hcode. }
  destruct (filter (code_is (Py.strip text)) (rows states)) as [|r rest] eqn:Hf.
  { by destruct (filter_nil_not_elem_of _ _ tx Hf Hm). }
  assert (r ∈ filter (code_is (Py.strip text)) (rows states)) as Hr
    by (rewrite Hf; left).
  apply list_elem_of_filter in Hr as [Hrm Hr].
  assert (r = tx) as ->.
  { eapply (omap_key_unique _ _ _ _ _ Hcodes Hr Htx Hrm Hm). }
  erewrite resolve_by_code by done. by rewrite Hfp.
Qed.

End Resolver.




(** C4: the full-name rule is tried before the postal-code rule and the
    first matching record wins, whatever the postal codes of the other
    records; the answer is that record's STATEFP padded with zeros to at
    least two characters; and on a correctly loaded reference dataset
    every case variant of Texas or TX resolves to 48. *)
Theorem resolve_state_rule_order `{Geometry}
    (states : GeoDataFrame) (text : string) :
  (∀ pre r post,
     rows states = pre ++ r :: post →
     Forall (λ y, ¬ name_is (Py.strip text) y) pre →
     name_is (Py.strip text) r →
     resolve_state_fips states text
     = Ok (Py.zfill 2 (Py.str (col "STATEFP" r))))
  ∧ (∀ pre r post,
       Forall (λ y, ¬ name_is (Py.strip text) y) (rows states) →
       rows states = pre ++ r :: post →
       Forall (λ y, ¬ code_is (Py.strip text) y) pre →
       code_is (Py.strip text) r →
       resolve_state_fips states text
       = Ok (Py.zfill 2 (Py.str (col "STATEFP" r))))
  ∧ (∀ fips, resolve_state_fips states text = Ok fips → 2 ≤ Py.len fips)
  ∧ (reference_states states →
     case_variant (Py.strip text) "Texas" ∨ case_variant (Py.strip text) "TX" →
     resolve_state_fips states text = Ok "48").
Proof.
  split; [|split; [|split]].
  - intros pre r post Hrows Hpre Hr.
    eapply resolve_by_name. rewrite Hrows. by apply filter_first.
  - intros pre r post Hnone Hrows Hpre Hr.
    eapply resolve_by_code; [by apply filter_none|].
    rewrite Hrows. by apply filter_first.
  - intros fips. unfold resolve_state_fips, select. simpl.
    destruct (filter (name_is _) _).
    + destruct (filter (code_is _) _); [done|].
      intros [= <-]. apply zfill_wide.
    + intros [= <-]. apply zfill_wide.
  - intros Href [Hcv|Hcv].
    + by apply reference_texas_by_name.
    + by apply reference_texas_by_code.
Qed.

Lemma resolve_state_rule_order_witness :
  resolve_state_fips Grid.states " tExAs " = Ok "48"
  ∧ resolve_state_fips Grid.states "tx" = Ok "48"
  ∧ resolve_state_fips Grid.states_clash "oh" = Ok "02".
Proof.
  assert (reference_states Grid.states) as Href.
  { apply (bool_decide_unpack _). vm_compute. exact I. }
  split; [|split].
  - apply (resolve_state_rule_order Grid.states " tExAs "); [done|].
    left. reflexivity.
  - apply (resolve_state_rule_order Grid.states "tx"); [done|].
    right. reflexivity.
  - destruct (resolve_state_rule_order Grid.states_clash "oh") as (Hname & _).
    apply (Hname [Grid.coded_oh] Grid.named_oh []); [reflexivity| |reflexivity].
    repeat constructor. vm_compute. discriminate.
Defined.

(** ** Clipping *)

Section Clip.
Context `{Platform}.
Implicit Types (w : World) (base boundary : GeoDataFrame) (e : exn).

(** With both CRS tags present the alignment succeeds, and its result
    carries the layer's tag. *)
Lemma align_crs_ok base boundary_gdf c cb :
  crs base = Some c → crs boundary_gdf = Some cb →
  ∃ boundary,
    align_crs base boundary_gdf = Ok boundary
    ∧ crs boundary = Some c
    ∧ geometry <$> rows boundary
      = (if decide (c = cb) then id else transform cb c)
          <$> (geometry <$> rows boundary_gdf).
Proof.
  intros Hc Hcb. unfold align_crs, to_crs. rewrite Hc, Hcb.
  destruct (decide (Some c ≠ Some cb)) as [Hne|Heq].
  - eexists. split; [done|]. split; [done|]. simpl.
    destruct (decide (c = cb)) as [->|_]; [done|].
    rewrite <- !list_fmap_compose. reflexivity.
  - apply dec_stable in Heq. injection Heq as ->.
    exists boundary_gdf. split; [done|]. split; [done|].
    rewrite decide_True by done. by rewrite list_fmap_id.
Qed.

(** What a successful clip leaves behind. *)
Lemma clip_ok layer_shp boundary_gdf output_path w base c cb :
  disk w !! layer_shp = Some base →
  crs base = Some c → crs boundary_gdf = Some cb →
  ∃ w' boundary,
    clip_layer_to_boundary layer_shp boundary_gdf output_path w = (Ok (), w')
    ∧ align_crs base boundary_gdf = Ok boundary
    ∧ disk w'
      = <[output_path := select (type_isin (allowed_types base))
                           (gpd_clip base boundary)]> (disk w)
    ∧ os w' = os w ∧ stdin w' = stdin w
    ∧ ∃ lines, stdout w' = stdout w ++ lines.
Proof.
  intros Hd Hc Hcb.
  destruct (align_crs_ok base boundary_gdf c cb Hc Hcb) as (b & Hb & _).
  unfold clip_layer_to_boundary.
  unfold mbind, M_bind, bind, print, read_file. simpl. rewrite Hd. simpl.
  destruct (decide _) as [[?|?]|_]; [congruence..|].
  unfold lift. rewrite Hb.
  eexists _, b. split; [reflexivity|]. simpl.
  repeat split; try done.
  rewrite <- !app_assoc. by eexists.
Qed.

(** A clip that raises has written no dataset. *)
Lemma clip_raise layer_shp boundary_gdf output_path w w' e :
  clip_layer_to_boundary layer_shp boundary_gdf output_path w = (Raise e, w') →
  disk w' = disk w ∧ os w' = os w ∧ stdin w' = stdin w
  ∧ (∃ lines, stdout w' = stdout w ++ lines)
  ∧ ((disk w !! layer_shp = None ∧ ∃ msg, e = DataSourceError msg)
     ∨ (∃ base, disk w !! layer_shp = Some base
                ∧ (crs base = None ∨ crs boundary_gdf = None)
                ∧ e = missing_crs)).
Proof.
  unfold clip_layer_to_boundary.
  unfold mbind, M_bind, bind, print, read_file. simpl.
  destruct (disk w !! layer_shp) as [base|] eqn:Hd; simpl.
  - destruct (decide _) as [Hnone|Hsome].
    + intros [= <- <-]. simpl. repeat split; try done.
      * rewrite <- !app_assoc. by eexists.
      * right. by exists base.
    + destruct (crs base) as [c|] eqn:Hc; [|by destruct Hsome; left].
      destruct (crs boundary_gdf) as [cb|] eqn:Hcb; [|by destruct Hsome; right].
      destruct (align_crs_ok base boundary_gdf c cb Hc Hcb) as (b & Hb & _).
      unfold lift. rewrite Hb. done.
  - intros [= <- <-]. simpl. repeat split; try done.
    + by eexists.
    + left. split; [done|]. by eexists.
Qed.

(** The outcome of a clip and the disk it leaves depend on the disk
    alone, not on the console. *)
Lemma clip_reads_disk_only layer_shp boundary_gdf output_path w1 w2 :
  disk w1 = disk w2 →
  (clip_layer_to_boundary layer_shp boundary_gdf output_path w1).1
  = (clip_layer_to_boundary layer_shp boundary_gdf output_path w2).1
  ∧ disk (clip_layer_to_boundary layer_shp boundary_gdf output_path w1).2
    = disk (clip_layer_to_boundary layer_shp boundary_gdf output_path w2).2.
Proof.
  intros Hdisk.
  unfold clip_layer_to_boundary.
  unfold mbind, M_bind, bind, print, read_file. simpl. rewrite Hdisk.
  destruct (disk w2 !! layer_shp) as [base|]; simpl; [|done].
  destruct (decide _); [done|].
  unfold lift. by destruct (align_crs base boundary_gdf).
Qed.

End Clip.

Section ClipClaims.
Context `{Platform}.
Implicit Types (w : World) (base boundary : GeoDataFrame) (e : exn).

Lemma clip_stdout_grows layer_shp boundary_gdf output_path w :
  ∃ lines,
    stdout (clip_layer_to_boundary layer_shp boundary_gdf output_path w).2
    = stdout w ++ lines.
Proof.
  unfold clip_layer_to_boundary.
  unfold mbind, M_bind, bind, print, read_file. simpl.
  destruct (disk w !! layer_shp) as [base|]; simpl; [|by eexists].
  destruct (decide _); simpl.
  { rewrite <- !app_assoc. by eexists. }
  unfold lift. destruct (align_crs base boundary_gdf); simpl;
    rewrite <- !app_assoc; by eexists.
Qed.

Lemma allowed_types_polygons base :
  (∀ f, f ∈ rows base → polygonal f) → allowed_types base = polygonish.
Proof.
  intros Hpoly. unfold allowed_types.
  rewrite decide_True; [done|].
  intros t Ht. unfold geom_types in Ht.
  apply elem_of_list_to_set, list_elem_of_fmap in Ht as (f & -> & Hf).
  unfold polygonish. destruct (Hpoly f Hf) as [-> | ->]; set_solver.
Qed.


End ClipClaims.

(** Settle a decidable statement about concrete data by running its
    decision procedure. *)
Ltac by_evaluation :=
  first [ apply (bool_decide_eq_false_1 _); vm_compute; reflexivity
        | apply (bool_decide_eq_true_1 _); vm_compute; reflexivity ].



(** C6: a layer holding only polygons and multi-polygons is written out
    with polygons and multi-polygons only, whatever type the engine gives
    the intersections. *)
Theorem polygon_layer_clips_to_polygons `{Platform}
    (layer_shp output_path : string) (boundary_gdf base : GeoDataFrame)
    (w : World) (c cb : string) :
  disk w !! layer_shp = Some base →
  crs base = Some c →
  crs boundary_gdf = Some cb →
  (∀ f, f ∈ rows base → polygonal f) →
  ∃ w' out,
    clip_layer_to_boundary layer_shp boundary_gdf output_path w = (Ok (), w')
    ∧ disk w' !! output_path = Some out
    ∧ ∀ f, f ∈ rows out → polygonal f.
Proof.
  intros Hd Hc Hcb Hpoly.
  destruct (clip_ok layer_shp boundary_gdf output_path w base c cb Hd Hc Hcb)
    as (w' & b & Hrun & Hb & Hdisk & _).
  eexists w', _. split; [done|]. split.
  { rewrite Hdisk. apply lookup_insert_eq. }
  intros f Hf. simpl in Hf.
  apply list_elem_of_filter in Hf as [Hty _].
  unfold type_isin in Hty. rewrite (allowed_types_polygons base Hpoly) in Hty.
  unfold polygonal, polygonish in *. set_solver.
Qed.

Lemma polygon_layer_clips_to_polygons_witness :
  ∃ w' out,
    clip_layer_to_boundary "counties.shp" Grid.texas_boundary "out.shp"
      Grid.files = (Ok (), w')
    ∧ disk w' !! "out.shp" = Some out
    ∧ ∀ f, f ∈ rows out → polygonal f.
Proof.
  apply (polygon_layer_clips_to_polygons "counties.shp" "out.shp"
           Grid.texas_boundary Grid.counties Grid.files
           "EPSG:4269" "EPSG:4269"); try reflexivity.
  intros f Hf. left.
  repeat (apply elem_of_cons in Hf as [->|Hf]; [reflexivity|]).
  by apply not_elem_of_nil in Hf.
Defined.






(** ** Step 4 of the pipeline *)

Section Pipeline.
Context `{Platform}.
Implicit Types (w : World) (boundary : GeoDataFrame) (e : exn).

(** One clip under its handler: it never raises, it leaves the disk the
    clip left, and an error of the clip is printed. *)
Lemma guarded_clip label layer_shp boundary output_path w :
  let clip := clip_layer_to_boundary layer_shp boundary output_path in
  let guarded := try_except clip (λ e, print (label +:+ exn_str e)) in
  (guarded w).1 = Ok ()
  ∧ disk (guarded w).2 = disk (clip w).2
  ∧ (∃ lines, stdout (guarded w).2 = stdout w ++ lines)
  ∧ (∀ e, (clip w).1 = Raise e → label +:+ exn_str e ∈ stdout (guarded w).2).
Proof.
  intros clip guarded.
  destruct (clip_stdout_grows layer_shp boundary output_path w)
    as [lines Hlines].
  fold clip in Hlines. unfold guarded, try_except.
  destruct (clip w) as [[[]|e1] w1]; simpl in *.
  - repeat split; [by eexists | done].
  - repeat split.
    + rewrite Hlines, <- app_assoc. by eexists.
    + intros e [= ->]. set_solver.
Qed.

Lemma main_clip_layers_run roads_shp counties_shp boundary w :
  main_clip_layers roads_shp counties_shp boundary w
  = try_except
      (clip_layer_to_boundary counties_shp boundary
         (OsPath.join CLIPPED_FOLDER "counties_clipped.shp"))
      (λ e, print ("Error clipping counties: " +:+ exn_str e))
      (try_except
         (clip_layer_to_boundary roads_shp boundary
            (OsPath.join CLIPPED_FOLDER "roads_clipped.shp"))
         (λ e, print ("Error clipping roads: " +:+ exn_str e)) w).2.
Proof.
  unfold main_clip_layers, mbind, M_bind, bind.
  destruct (guarded_clip "Error clipping roads: " roads_shp boundary
              (OsPath.join CLIPPED_FOLDER "roads_clipped.shp") w)
    as (Hok & _).
  simpl in Hok. by destruct (try_except _ _ w) as [[[]|?] ?].
Qed.

End Pipeline.

(** C7: on a layer that could be read, the clip raises the missing-CRS
    error exactly when the layer or the boundary carries no CRS.  In
    step 4 of [main] the two clips run under separate handlers: the step
    itself never raises; when the roads clip raises, its error is printed
    and the counties clip runs with the outcome and the disk it would have
    had on its own; when the counties clip raises, its error is printed
    and what the roads clip left on disk stays. *)
Theorem missing_crs_fails_one_clip_only `{Platform}
    (roads_shp counties_shp : string) (boundary : GeoDataFrame) (w : World) :
  let roads := clip_layer_to_boundary roads_shp boundary
                 (OsPath.join CLIPPED_FOLDER "roads_clipped.shp") in
  let counties := clip_layer_to_boundary counties_shp boundary
                    (OsPath.join CLIPPED_FOLDER "counties_clipped.shp") in
  let step4 := main_clip_layers roads_shp counties_shp boundary in
  (∀ layer_shp output_path base,
     disk w !! layer_shp = Some base →
     (clip_layer_to_boundary layer_shp boundary output_path w).1
     = Raise missing_crs
     ↔ crs base = None ∨ crs boundary = None)
  ∧ (step4 w).1 = Ok ()
  ∧ (∀ e, (roads w).1 = Raise e →
          (counties (roads w).2).1 = (counties w).1
          ∧ disk (step4 w).2 = disk (counties w).2
          ∧ "Error clipping roads: " +:+ exn_str e ∈ stdout (step4 w).2)
  ∧ (∀ e, (counties (roads w).2).1 = Raise e →
          disk (step4 w).2 = disk (roads w).2
          ∧ "Error clipping counties: " +:+ exn_str e ∈ stdout (step4 w).2).
Proof.
  intros roads counties step4.
  pose proof (guarded_clip "Error clipping roads: " roads_shp boundary
                (OsPath.join CLIPPED_FOLDER "roads_clipped.shp") w)
    as (_ & Hrd & _ & Hrmsg).
  fold roads in Hrd, Hrmsg.
  set (groads := try_except roads _) in *.
  pose proof (guarded_clip "Error clipping counties: " counties_shp boundary
                (OsPath.join CLIPPED_FOLDER "counties_clipped.shp")
                (groads w).2)
    as (Hcok & Hcd & (lines & Hclines) & Hcmsg).
  fold counties in Hcd, Hcmsg, Hcok, Hclines.
  assert (step4 w = try_except counties
                      (λ e, print ("Error clipping counties: " +:+ exn_str e))
                      (groads w).2) as Hstep
    by apply main_clip_layers_run.
  rewrite Hstep. clear Hstep.
  set (gcounties := try_except counties _) in *.
  split; [|split; [|split]].
  - intros layer_shp output_path base Hd. split.
    + destruct (clip_layer_to_boundary layer_shp boundary output_path w)
        as [r w'] eqn:Hrun.
      simpl. intros ->.
      apply clip_raise in Hrun as (_ & _ & _ & _ & [[Hnone _]|Hcrs]).
      * congruence.
      * destruct Hcrs as (base' & Hd' & Hcrs & _). congruence.
    + intros Hcrs. unfold clip_layer_to_boundary.
      unfold mbind, M_bind, bind, print, read_file. simpl. rewrite Hd. simpl.
      by rewrite decide_True.
  - done.
  - intros e Hroads.
    assert (disk (roads w).2 = disk w) as Hsame.
    { destruct (roads w) as [r1 w1] eqn:Hrun. simpl in Hroads. subst r1.
      by apply clip_raise in Hrun as (? & _). }
    split; [by apply clip_reads_disk_only|]. split.
    + rewrite Hcd. apply clip_reads_disk_only. by rewrite Hrd.
    + rewrite Hclines. apply elem_of_app. left. by apply Hrmsg.
  - intros e Hcounties.
    assert ((counties (groads w).2).1 = Raise e) as Hraise.
    { rewrite <- Hcounties. by apply clip_reads_disk_only. }
    split; [|by apply Hcmsg].
    rewrite Hcd, <- Hrd.
    destruct (counties (groads w).2) as [r2 w2] eqn:Hrun.
    simpl in Hraise. subst r2.
    by apply clip_raise in Hrun as (? & _).
Qed.

Lemma missing_crs_fails_one_clip_only_witness :
  let out := OsPath.join CLIPPED_FOLDER "counties_clipped.shp" in
  let after := (main_clip_layers "roads_untagged.shp" "counties.shp"
                  Grid.texas_boundary Grid.files).2 in
  disk after
  = disk (clip_layer_to_boundary "counties.shp" Grid.texas_boundary out
            Grid.files).2
  ∧ "Error clipping roads: CRS missing on base or boundary" ∈ stdout after
  ∧ is_Some (disk after !! out).
Proof.
  destruct (missing_crs_fails_one_clip_only "roads_untagged.shp" "counties.shp"
              Grid.texas_boundary Grid.files) as (_ & _ & Hroads & _).
  destruct (Hroads missing_crs) as (_ & Hdisk & Hmsg).
  { vm_compute. reflexivity. }
  split; [exact Hdisk|]. split; [exact Hmsg|].
  vm_compute. eexists. reflexivity.
Defined.

(** ** Boundary construction *)

Section Boundary.
Context `{Platform}.
Implicit Types (w : World) (e : exn).

Lemma dissolve_single_union (gdf : GeoDataFrame) :
  rows gdf ≠ [] → single_union (dissolve gdf) (rows gdf).
Proof.
  intros Hne. split; [done|]. unfold dissolve.
  destruct (rows gdf) as [|r l] eqn:Hrows; [done|].
  eexists. split; [reflexivity|]. done.
Qed.

Lemma empty_false (gdf : GeoDataFrame) : empty gdf = false ↔ rows gdf ≠ [].
Proof. unfold empty. by destruct (rows gdf). Qed.

Lemma empty_true (gdf : GeoDataFrame) : empty gdf = true ↔ rows gdf = [].
Proof. unfold empty. by destruct (rows gdf). Qed.

(** The county branch, step by step. *)
Lemma build_boundary_fips boundary_type boundary_value states_shp counties_shp w :
  Py.strip (Py.lower boundary_type) = "fips" →
  let code := Py.strip boundary_value in
  (build_boundary boundary_type boundary_value states_shp counties_shp w).1
  = if negb (Py.len code =? 5) || negb (Py.isdigit code) then Raise invalid_fips
    else match disk w !! counties_shp with
         | None => Raise (DataSourceError
                            (counties_shp +:+ ": No such file or directory"))
         | Some counties =>
             if empty (select (geoid_is code) counties)
             then Raise (no_county_found code)
             else Ok (dissolve (select (geoid_is code) counties))
         end.
Proof.
  intros Hty code. unfold build_boundary. rewrite Hty. fold code.
  rewrite decide_False by done. rewrite decide_True by done.
  destruct (_ || _); [done|].
  unfold mbind, M_bind, bind, read_file.
  destruct (disk w !! counties_shp) as [counties|]; [|done].
  by destruct (empty _).
Qed.

(** The state branch, step by step. *)
Lemma build_boundary_state boundary_type boundary_value states_shp counties_shp w :
  Py.strip (Py.lower boundary_type) = "state" →
  let value := Py.strip boundary_value in
  (build_boundary boundary_type boundary_value states_shp counties_shp w).1
  = match disk w !! states_shp with
    | None => Raise (DataSourceError
                       (states_shp +:+ ": No such file or directory"))
    | Some states =>
        match resolve_state_fips states value with
        | Raise e => Raise e
        | Ok state_fips =>
            if empty (select (statefp_is state_fips) states)
            then Raise (no_state_found value)
            else Ok (dissolve (select (statefp_is state_fips) states))
        end
    end.
Proof.
  intros Hty value. unfold build_boundary. rewrite Hty. fold value.
  rewrite decide_True by done.
  unfold mbind, M_bind, bind, read_file, lift.
  destruct (disk w !! states_shp) as [states|]; [|done].
  destruct (resolve_state_fips states value) as [fips|e]; [|done].
  by destruct (empty _).
Qed.

Lemma build_boundary_other boundary_type boundary_value states_shp counties_shp w :
  Py.strip (Py.lower boundary_type) ≠ "state" →
  Py.strip (Py.lower boundary_type) ≠ "fips" →
  build_boundary boundary_type boundary_value states_shp counties_shp w
  = (Raise unsupported_type, w).
Proof.
  intros Hs Hf. unfold build_boundary. by rewrite !decide_False.
Qed.

(** Building a boundary writes no dataset. *)
Lemma build_boundary_disk boundary_type boundary_value states_shp counties_shp w :
  disk (build_boundary boundary_type boundary_value states_shp counties_shp w).2
  = disk w.
Proof.
  unfold build_boundary.
  destruct (decide (_ = "state")).
  - unfold mbind, M_bind, bind, read_file, lift.
    destruct (disk w !! states_shp) as [states|]; [|done].
    destruct (resolve_state_fips _ _); [|done].
    by destruct (empty _).
  - destruct (decide (_ = "fips")); [|done].
    destruct (_ || _); [done|].
    unfold mbind, M_bind, bind, read_file.
    destruct (disk w !! counties_shp) as [counties|]; [|done].
    by destruct (empty _).
Qed.

End Boundary.

(** C5, as the specification words it, does not hold: the code strips the
    value before it checks it, so a six-character input made of a valid
    code and a trailing space is accepted. *)
Lemma padded_county_code_counterexample :
  ¬ (∀ (G : Geometry) (P : Platform) (w : World)
       (value states_shp counties_shp : string),
       (build_boundary "fips" value states_shp counties_shp w).1
       = Raise invalid_fips
       ↔ ¬ (Py.len value = 5 ∧ Py.isdigit value = true)).
Proof.
  intros claim.
  destruct (claim Grid.geometry_engine Grid.platform Grid.files
              "48113 " "states.shp" "counties.shp") as [_ Hfail].
  assert (is_ok (build_boundary "fips" "48113 " "states.shp" "counties.shp"
                   Grid.files).1 = true) as Hrun
    by (vm_compute; reflexivity).
  rewrite Hfail in Hrun; [discriminate Hrun|].
  intros [Hlen _]. vm_compute in Hlen. discriminate Hlen.
Qed.

(** C5 (amended): county boundary construction raises the invalid-code
    error exactly when the value, once leading and trailing whitespace is
    removed, is not five characters that are all digits.  For a value
    that passes and a county file that could be read, it raises the
    no-county error, quoting the stripped value, when no record has that
    GEOID, and returns the dissolved selection when one does. *)
Theorem county_code_validation `{Platform}
    (boundary_type boundary_value states_shp counties_shp : string)
    (w : World) :
  Py.strip (Py.lower boundary_type) = "fips" →
  let code := Py.strip boundary_value in
  let outcome :=
    (build_boundary boundary_type boundary_value states_shp counties_shp w).1 in
  (outcome = Raise invalid_fips
   ↔ ¬ (Py.len code = 5 ∧ Py.isdigit code = true))
  ∧ (Py.len code = 5 → Py.isdigit code = true →
     ∀ counties, disk w !! counties_shp = Some counties →
       (Forall (λ r, ¬ geoid_is code r) (rows counties) →
        outcome = Raise (no_county_found code))
       ∧ (Exists (geoid_is code) (rows counties) →
          outcome = Ok (dissolve (select (geoid_is code) counties)))).
Proof.
  intros Hty code outcome. unfold outcome.
  rewrite (build_boundary_fips _ _ _ _ _ Hty). fold code.
  split.
  - destruct (Nat.eqb_spec (Py.len code) 5) as [Hlen|Hlen];
      destruct (Py.isdigit code) eqn:Hdig; simpl.
    + split; [|intros []; done].
      destruct (disk w !! counties_shp) as [counties|]; [|done].
      destruct (empty _); [|done].
      unfold no_county_found, invalid_fips. simpl. discriminate.
    + split; [intros _ [_ ?]; done | done].
    + split; [intros _ [? _]; done | done].
    + split; [intros _ [? _]; done | done].
  - intros Hlen Hdig counties Hd.
    rewrite Hlen, Hdig, Hd. simpl. split.
    + intros Hnone.
      assert (rows (select (geoid_is code) counties) = []) as Hrows
        by apply (proj2 (filter_none _ _) Hnone).
      by rewrite (proj2 (empty_true _) Hrows).
    + intros Hsome. apply Exists_exists in Hsome as (r & Hr & Hmatch).
      assert (rows (select (geoid_is code) counties) ≠ []) as Hrows.
      { intros Hnil. simpl in Hnil.
        exact (filter_nil_not_elem_of _ _ r Hnil Hmatch Hr). }
      by rewrite (proj2 (empty_false _) Hrows).
Qed.

Lemma county_code_validation_witness :
  (build_boundary "fips" "4811" "states.shp" "counties.shp" Grid.files).1
  = Raise invalid_fips
  ∧ (build_boundary "fips" "481133" "states.shp" "counties.shp" Grid.files).1
    = Raise invalid_fips
  ∧ (build_boundary "fips" "99999" "states.shp" "counties.shp" Grid.files).1
    = Raise (no_county_found "99999")
  ∧ (build_boundary "fips" " 48113 " "states.shp" "counties.shp" Grid.files).1
    = Ok (dissolve (select (geoid_is "48113") Grid.counties)).
Proof.
  split; [|split; [|split]].
  - apply (county_code_validation "fips" "4811" "states.shp" "counties.shp"
             Grid.files); [reflexivity|].
    intros [Hlen _]. vm_compute in Hlen. discriminate Hlen.
  - apply (county_code_validation "fips" "481133" "states.shp" "counties.shp"
             Grid.files); [reflexivity|].
    intros [Hlen _]. vm_compute in Hlen. discriminate Hlen.
  - eapply (county_code_validation "fips" "99999" "states.shp" "counties.shp"
              Grid.files); try reflexivity.
    repeat constructor; vm_compute; discriminate.
  - eapply (county_code_validation "fips" " 48113 " "states.shp" "counties.shp"
              Grid.files); try reflexivity.
    left. reflexivity.
Defined.

(** C9: what [build_boundary] returns is determined by its arguments and
    the two datasets it may read: two worlds holding the same states and
    counties files give the same outcome, and so does a second run made
    after the first. *)
Theorem build_boundary_deterministic `{Platform}
    (boundary_type boundary_value states_shp counties_shp : string)
    (w1 w2 : World) :
  disk w1 !! states_shp = disk w2 !! states_shp →
  disk w1 !! counties_shp = disk w2 !! counties_shp →
  let build := build_boundary boundary_type boundary_value
                 states_shp counties_shp in
  (build w1).1 = (build w2).1 ∧ (build (build w1).2).1 = (build w1).1.
Proof.
  intros Hs Hc build.
  assert (∀ wa wb, disk wa !! states_shp = disk wb !! states_shp →
                   disk wa !! counties_shp = disk wb !! counties_shp →
                   (build wa).1 = (build wb).1) as Hsame.
  { intros wa wb Hsa Hca. unfold build.
    destruct (decide (Py.strip (Py.lower boundary_type) = "state")) as [Hst|Hst].
    - by rewrite !(build_boundary_state _ _ _ _ _ Hst), Hsa.
    - destruct (decide (Py.strip (Py.lower boundary_type) = "fips")) as [Hf|Hf].
      + by rewrite !(build_boundary_fips _ _ _ _ _ Hf), Hca.
      + by rewrite !build_boundary_other. }
  split; [by apply Hsame|].
  apply Hsame; unfold build; by rewrite build_boundary_disk.
Qed.

Lemma build_boundary_deterministic_witness :
  let build := build_boundary "state" "TX" "states.shp" "counties.shp" in
  let noisy := (print "earlier output" Grid.files).2 in
  (build Grid.files).1 = (build noisy).1
  ∧ (build (build Grid.files).2).1 = (build Grid.files).1.
Proof.
  apply (build_boundary_deterministic "state" "TX" "states.shp" "counties.shp"
           Grid.files (print "earlier output" Grid.files).2);
    reflexivity.
Defined.

(** ** The three construction modes *)

Section Modes.
Context `{Platform}.
Implicit Types (w : World) (e : exn).

Lemma build_boundary_ok boundary_type boundary_value states_shp counties_shp
    w (b : GeoDataFrame) w' :
  build_boundary boundary_type boundary_value states_shp counties_shp w
  = (Ok b, w') →
  (∃ states fips,
     Py.strip (Py.lower boundary_type) = "state"
     ∧ disk w !! states_shp = Some states
     ∧ resolve_state_fips states (Py.strip boundary_value) = Ok fips
     ∧ single_union b (filter (statefp_is fips) (rows states)))
  ∨ (∃ counties,
       Py.strip (Py.lower boundary_type) = "fips"
       ∧ disk w !! counties_shp = Some counties
       ∧ single_union b
           (filter (geoid_is (Py.strip boundary_value)) (rows counties))).
Proof.
  intros Hrun. apply (f_equal fst) in Hrun. simpl in Hrun.
  destruct (decide (Py.strip (Py.lower boundary_type) = "state")) as [Hst|Hst].
  - left. rewrite (build_boundary_state _ _ _ _ _ Hst) in Hrun.
    destruct (disk w !! states_shp) as [states|]; [|done].
    destruct (resolve_state_fips _ _) as [fips|] eqn:Hres; [|done].
    destruct (empty _) eqn:Hempty; [done|].
    injection Hrun as <-. exists states, fips.
    split; [done|]. split; [done|]. split; [done|].
    apply (dissolve_single_union (select (statefp_is fips) states)).
    by apply empty_false.
  - destruct (decide (Py.strip (Py.lower boundary_type) = "fips")) as [Hf|Hf].
    + right. rewrite (build_boundary_fips _ _ _ _ _ Hf) in Hrun.
      destruct (_ || _); [done|].
      destruct (disk w !! counties_shp) as [counties|]; [|done].
      destruct (empty _) eqn:Hempty; [done|].
      injection Hrun as <-. exists counties.
      split; [done|]. split; [done|].
      apply (dissolve_single_union
               (select (geoid_is (Py.strip boundary_value)) counties)).
      by apply empty_false.
    + by rewrite build_boundary_other in Hrun.
Qed.

Lemma build_city_boundary_ok city_name state_input states_shp
    w (b : GeoDataFrame) w' :
  build_city_boundary city_name state_input states_shp w = (Ok b, w') →
  ∃ states fips place_shp w1 places,
    disk w !! states_shp = Some states
    ∧ resolve_state_fips states state_input = Ok fips
    ∧ fetch_places fips w = (Ok place_shp, w1)
    ∧ disk w1 !! place_shp = Some places
    ∧ single_union b (filter (place_is city_name fips) (rows places)).
Proof.
  unfold build_city_boundary, fetch_places.
  unfold mbind at 1 2. unfold M_bind, bind at 1 2. unfold read_file at 1.
  destruct (disk w !! states_shp) as [states|]; [|done].
  unfold lift.
  destruct (resolve_state_fips states state_input) as [fips|] eqn:Hres;
    [|done].
  unfold mbind at 1. unfold M_bind, bind at 1.
  unfold mbind at 2. unfold M_bind, bind at 2.
  destruct (download_zip _ _ w) as [[zip_path|] w0] eqn:Hzip; [|done].
  unfold mbind at 1. unfold M_bind, bind at 1.
  destruct (unzip_zip _ zip_path w0) as [[place_shp|] w1] eqn:Hshp; [|done].
  unfold mbind, M_bind, bind, read_file.
  destruct (disk w1 !! place_shp) as [places|] eqn:Hplaces; [|done].
  destruct (empty _) eqn:Hempty; [done|].
  simpl. intros [= <- _].
  exists states, fips, place_shp, w1, places.
  split; [done|]. split; [done|].
  split; [by rewrite Hzip, Hshp|]. split; [done|].
  apply (dissolve_single_union (select (place_is city_name fips) places)).
  by apply empty_false.
Qed.

Lemma single_union_polygonal (b : GeoDataFrame) matched :
  single_union b matched → union_keeps_polygons →
  Forall polygonal matched → ∀ f, f ∈ rows b → polygonal f.
Proof.
  intros (Hne & f0 & Hrows & Hgeo) Hlaw Hpoly f Hf.
  rewrite Hrows in Hf. apply list_elem_of_singleton in Hf as ->.
  assert (geom_type (geometry f0) ∈ polygonish) as Hin.
  { rewrite Hgeo. apply Hlaw.
    - by destruct matched.
    - apply Forall_fmap. eapply Forall_impl; [exact Hpoly|].
      intros r [Hr|Hr]; simpl; rewrite Hr; unfold polygonish; set_solver. }
  unfold polygonal, polygonish in *. set_solver.
Qed.

End Modes.

(** In the small engine a union of polygons is a polygon or a
    multi-polygon. *)
Lemma grid_union_keeps_polygons :
  @union_keeps_polygons Grid.geometry_engine.
Proof.
  intros gs Hne Hall. simpl in *.
  assert (∀ g : Grid.shape,
            Grid.type_name g ∈ polygonish ↔ Grid.sdim g = Grid.Pg) as Hdim.
  { intros [d ps]. unfold Grid.type_name, polygonish. simpl.
    rewrite elem_of_union, !elem_of_singleton.
    destruct d, ps as [|p [|q ps]]; split;
      try discriminate; try (intros [?|?]; discriminate); auto. }
  apply Hdim. simpl.
  destruct gs as [|g gs]; [done|].
  apply Forall_cons in Hall as [Hg _]. apply Hdim in Hg.
  simpl. by rewrite Hg.
Qed.

(** C8, as the specification words it, does not hold for the geometry
    type: the builder never looks at it.  From a county file whose record
    for 48113 is a line, the boundary returned is one feature that is a
    LineString. *)
Lemma boundary_of_lines_counterexample :
  ¬ (∀ (G : Geometry) (P : Platform) (w w' : World)
       (boundary_type boundary_value states_shp counties_shp : string)
       (b : GeoDataFrame),
       build_boundary boundary_type boundary_value states_shp counties_shp w
       = (Ok b, w') →
       ∀ f, f ∈ rows b → polygonal f).
Proof.
  intros claim.
  pose (run := build_boundary "fips" "48113" "states.shp" "outlines.shp"
                 Grid.files).
  assert (∃ b, run = (Ok b, run.2)
               ∧ (geom_type ∘ geometry) <$> rows b = ["LineString"])
    as (b & Hrun & Hty).
  { eexists. split; vm_compute; reflexivity. }
  destruct (rows b) as [|f [|]] eqn:Hrows; try discriminate Hty.
  injection Hty as Hty.
  destruct (claim Grid.geometry_engine Grid.platform Grid.files run.2
              "fips" "48113" "states.shp" "outlines.shp" b Hrun f)
    as [Hf|Hf].
  - rewrite Hrows. left.
  - simpl in Hty, Hf. rewrite Hty in Hf. discriminate Hf.
  - simpl in Hty, Hf. rewrite Hty in Hf. discriminate Hf.
Qed.

(** C8 (amended): a boundary returned in state, county or city mode is
    exactly one feature whose geometry is the union of all the records
    matched, however many there are: the state records whose STATEFP is
    the resolved code, the county records whose GEOID is the stripped
    value, the place records whose name matches, case aside, in the
    resolved state.  The builder does not check geometry types; the one
    feature is a polygon or multi-polygon when every matched record is
    and the engine's union keeps polygons polygons. *)
Theorem boundary_is_single_union `{Platform} :
  (∀ boundary_type boundary_value states_shp counties_shp
     (w w' : World) (b : GeoDataFrame),
     build_boundary boundary_type boundary_value states_shp counties_shp w
     = (Ok b, w') →
     (∃ states fips,
        Py.strip (Py.lower boundary_type) = "state"
        ∧ disk w !! states_shp = Some states
        ∧ resolve_state_fips states (Py.strip boundary_value) = Ok fips
        ∧ single_union b (filter (statefp_is fips) (rows states)))
     ∨ (∃ counties,
          Py.strip (Py.lower boundary_type) = "fips"
          ∧ disk w !! counties_shp = Some counties
          ∧ single_union b
              (filter (geoid_is (Py.strip boundary_value)) (rows counties))))
  ∧ (∀ city_name state_input states_shp (w w' : World) (b : GeoDataFrame),
       build_city_boundary city_name state_input states_shp w = (Ok b, w') →
       ∃ states fips place_shp w1 places,
         disk w !! states_shp = Some states
         ∧ resolve_state_fips states state_input = Ok fips
         ∧ fetch_places fips w = (Ok place_shp, w1)
         ∧ disk w1 !! place_shp = Some places
         ∧ single_union b (filter (place_is city_name fips) (rows places)))
  ∧ (∀ (b : GeoDataFrame) matched,
       single_union b matched →
       length (rows b) = 1
       ∧ (union_keeps_polygons → Forall polygonal matched →
          ∀ f, f ∈ rows b → polygonal f)).
Proof.
  split; [|split].
  - intros. by eapply build_boundary_ok.
  - intros. by eapply build_city_boundary_ok.
  - intros b matched Hsu. split.
    + destruct Hsu as (_ & f & -> & _). done.
    + by apply single_union_polygonal.
Qed.

Lemma boundary_is_single_union_witness :
  (∃ b w',
     build_boundary "fips" "48113" "states.shp" "counties.shp" Grid.files
     = (Ok b, w')
     ∧ single_union b [Grid.dallas; Grid.dallas_again]
     ∧ length (rows b) = 1
     ∧ ∀ f, f ∈ rows b → polygonal f)
  ∧ (∃ b w',
       build_city_boundary " dallas" "tx" "states.shp" Grid.files = (Ok b, w')
       ∧ single_union b [Grid.dallas_north; Grid.dallas_south]
       ∧ length (rows b) = 1
       ∧ ∀ f, f ∈ rows b → polygonal f).
Proof.
  destruct (@boundary_is_single_union Grid.geometry_engine Grid.platform)
    as (Hbuild & Hcity & Hone).
  split.
  - pose (run := build_boundary "fips" "48113" "states.shp" "counties.shp"
                   Grid.files).
    assert (∃ b, run = (Ok b, run.2)) as [b Hrun]
      by (eexists; vm_compute; reflexivity).
    exists b, run.2. split; [exact Hrun|].
    destruct (Hbuild _ _ _ _ _ _ _ Hrun)
      as [(? & ? & Hty & _) | (counties & _ & Hd & Hsu)];
      [vm_compute in Hty; discriminate Hty|].
    assert (counties = Grid.counties) as ->.
    { vm_compute in Hd. by injection Hd as <-. }
    split; [exact Hsu|].
    destruct (Hone b _ Hsu) as [Hlen Hpoly].
    split; [exact Hlen|]. apply Hpoly.
    + exact grid_union_keeps_polygons.
    + repeat constructor.
  - pose (run := build_city_boundary " dallas" "tx" "states.shp" Grid.files).
    assert (∃ b, run = (Ok b, run.2)) as [b Hrun]
      by (eexists; vm_compute; reflexivity).
    exists b, run.2. split; [exact Hrun|].
    destruct (Hcity _ _ _ _ _ _ Hrun)
      as (states & fips & place_shp & w1 & places
          & Hd & Hres & Hfetch & Hplaces & Hsu).
    assert (states = Grid.states) as ->.
    { vm_compute in Hd. by injection Hd as <-. }
    assert (fips = "48") as ->.
    { vm_compute in Hres. by injection Hres as <-. }
    assert (place_shp = Grid.places_shp ∧ disk w1 = disk Grid.files)
      as [-> Hw1].
    { vm_compute in Hfetch. by injection Hfetch as <- <-. }
    assert (places = Grid.places) as ->.
    { rewrite Hw1 in Hplaces. vm_compute in Hplaces. by injection Hplaces as <-. }
    split; [exact Hsu|].
    destruct (Hone b _ Hsu) as [Hlen Hpoly].
    split; [exact Hlen|]. apply Hpoly.
    + exact grid_union_keeps_polygons.
    + repeat constructor.
Defined.


(** * Further properties of the program *)

(** ** Stripping *)

Lemma append_nil_r (s : string) : s +:+ "" = s.
Proof.
  induction s as [|x s IH]; [done|].
  change (String x (s +:+ "") = String x s). by rewrite IH.
Qed.

Lemma append_assoc (a b c : string) : (a +:+ b) +:+ c = a +:+ (b +:+ c).
Proof.
  induction a as [|x a IH]; [done|].
  change (String x ((a +:+ b) +:+ c) = String x (a +:+ (b +:+ c))).
  by rewrite IH.
Qed.

Lemma rev_app_app a b : String.rev_app a b = String.rev_app a "" +:+ b.
Proof.
  revert b. induction a as [|x a IH]; intros b; simpl; [done|].
  rewrite (IH (String x b)), (IH (String x "")).
  by rewrite append_assoc.
Qed.

Lemma rev_app_rev_app a b c :
  String.rev_app (String.rev_app a b) c = String.rev_app b (a +:+ c).
Proof.
  revert b c. induction a as [|x a IH]; intros b c; simpl; [done|].
  by rewrite IH.
Qed.

Lemma rev_rev s : String.rev (String.rev s) = s.
Proof. unfold String.rev. rewrite rev_app_rev_app. simpl. apply append_nil_r. Qed.

Lemma rev_app_append a b c :
  String.rev_app (a +:+ b) c = String.rev_app b (String.rev_app a c).
Proof.
  revert c. induction a as [|x a IH]; intros c; [done|].
  change (String.rev_app (a +:+ b) (String x c)
          = String.rev_app b (String.rev_app a (String x c))).
  apply IH.
Qed.

Lemma rev_snoc s c : String.rev (s +:+ String c "") = String c (String.rev s).
Proof. unfold String.rev. by rewrite rev_app_append. Qed.

Lemma lstrip_fixed s :
  Py.lstrip s = s ↔ s = "" ∨ ∃ c s', s = String c s' ∧ Py.isspace_char c = false.
Proof.
  assert (∀ t, String.length (Py.lstrip t) ≤ String.length t) as Hlen.
  { induction t as [|c t IH]; simpl; [done|].
    destruct (Py.isspace_char c); simpl; lia. }
  destruct s as [|c s']; simpl.
  - split; auto.
  - destruct (Py.isspace_char c) eqn:Hc.
    + split.
      * intros Heq. pose proof (Hlen s') as Hle. rewrite Heq in Hle.
        simpl in Hle. lia.
      * intros [?|(c' & s'' & [= -> ->] & ?)]; [done | congruence].
    + split; [|done]. intros _. right. eauto.
Qed.

Lemma lstrip_lstrip s : Py.lstrip (Py.lstrip s) = Py.lstrip s.
Proof.
  induction s as [|c s IH]; simpl; [done|].
  destruct (Py.isspace_char c) eqn:Hc; [done|]. simpl. by rewrite Hc.
Qed.

(** a string ending in a non-space character keeps that character under
    [lstrip] *)
Lemma lstrip_snoc u c :
  Py.isspace_char c = false →
  ∃ v, Py.lstrip (u +:+ String c "") = v +:+ String c "".
Proof.
  intros Hc. induction u as [|x u IH].
  - exists "". simpl. by rewrite Hc.
  - change (String x u +:+ String c "") with (String x (u +:+ String c "")).
    simpl. destruct (Py.isspace_char x); [done|].
    by exists (String x u).
Qed.

Lemma rstrip_rstrip s : Py.rstrip (Py.rstrip s) = Py.rstrip s.
Proof. unfold Py.rstrip. by rewrite rev_rev, lstrip_lstrip. Qed.

Lemma lstrip_rstrip_fixed t : Py.lstrip t = t → Py.lstrip (Py.rstrip t) = Py.rstrip t.
Proof.
  intros Hfix. apply lstrip_fixed in Hfix as [->|(c & t' & -> & Hc)]; [done|].
  apply lstrip_fixed. right. unfold Py.rstrip, String.rev at 2. simpl.
  rewrite rev_app_app.
  destruct (lstrip_snoc (String.rev_app t' "") c Hc) as [v ->].
  rewrite rev_snoc. eauto.
Qed.

Lemma strip_strip s : Py.strip (Py.strip s) = Py.strip s.
Proof.
  unfold Py.strip.
  rewrite (lstrip_rstrip_fixed (Py.lstrip s)) by apply lstrip_lstrip.
  apply rstrip_rstrip.
Qed.

(** ** More on the state resolver *)

Section ResolverMore.
Context `{Geometry}.
Implicit Types (states : GeoDataFrame) (r : Feature) (text : string).

Lemma case_variant_upper a b : case_variant a b → Py.upper a = Py.upper b.
Proof. unfold case_variant. intros Hl. by rewrite <- (upper_lower a), Hl, upper_lower. Qed.

Lemma resolve_same_matches states t1 t2 :
  filter (name_is (Py.strip t1)) (rows states)
  = filter (name_is (Py.strip t2)) (rows states) →
  filter (code_is (Py.strip t1)) (rows states)
  = filter (code_is (Py.strip t2)) (rows states) →
  (∀ fips, resolve_state_fips states t1 = Ok fips
           ↔ resolve_state_fips states t2 = Ok fips)
  ∧ (resolve_state_fips states t1 = Raise (unresolved_state t1)
     ↔ resolve_state_fips states t2 = Raise (unresolved_state t2)).
Proof.
  intros Hn Hc. unfold resolve_state_fips, select. simpl. rewrite Hn, Hc.
  destruct (filter (name_is (Py.strip t2)) _); [|done].
  by destruct (filter (code_is (Py.strip t2)) _).
Qed.

Lemma resolve_ok_match states text fips :
  resolve_state_fips states text = Ok fips →
  ∃ r, r ∈ rows states
       ∧ (name_is (Py.strip text) r ∨ code_is (Py.strip text) r)
       ∧ fips = Py.zfill 2 (Py.str (col "STATEFP" r)).
Proof.
  unfold resolve_state_fips, select. simpl.
  destruct (filter (name_is _) _) as [|r l] eqn:Hn.
  - destruct (filter (code_is _) _) as [|r l] eqn:Hc; [done|].
    intros [= <-]. exists r.
    assert (r ∈ filter (code_is (Py.strip text)) (rows states)) as Hr
      by (rewrite Hc; left).
    apply list_elem_of_filter in Hr as [? ?]. auto.
  - intros [= <-]. exists r.
    assert (r ∈ filter (name_is (Py.strip text)) (rows states)) as Hr
      by (rewrite Hn; left).
    apply list_elem_of_filter in Hr as [? ?]. auto.
Qed.

End ResolverMore.

(** X1: the resolver looks at the text only up to surrounding
    whitespace and letter case: two texts that are case variants of each
    other once stripped resolve to the same code, or both fail. *)
Theorem resolve_state_ignores_case_and_padding `{Geometry}
    (states : GeoDataFrame) (t1 t2 : string) :
  case_variant (Py.strip t1) (Py.strip t2) →
  (∀ fips, resolve_state_fips states t1 = Ok fips
           ↔ resolve_state_fips states t2 = Ok fips)
  ∧ (resolve_state_fips states t1 = Raise (unresolved_state t1)
     ↔ resolve_state_fips states t2 = Raise (unresolved_state t2)).
Proof.
  intros Hcv. pose proof (case_variant_upper _ _ Hcv) as Hup.
  apply resolve_same_matches; apply list_filter_iff; intros r.
  - unfold name_is. unfold case_variant in Hcv. by rewrite Hcv.
  - unfold code_is. by rewrite Hup.
Qed.

Lemma resolve_state_ignores_case_and_padding_witness :
  resolve_state_fips Grid.states "  oHiO" = Ok "39"
  ↔ resolve_state_fips Grid.states "Ohio " = Ok "39".
Proof.
  apply (resolve_state_ignores_case_and_padding Grid.states "  oHiO" "Ohio ").
  reflexivity.
Defined.

(** X2: an answer of the resolver is always the STATEFP, padded to two
    characters, of a record of the dataset that matches the stripped text
    by full name or by postal code. *)
Theorem resolve_state_answer_is_a_record `{Geometry}
    (states : GeoDataFrame) (text fips : string) :
  resolve_state_fips states text = Ok fips →
  ∃ r, r ∈ rows states
       ∧ (name_is (Py.strip text) r ∨ code_is (Py.strip text) r)
       ∧ fips = Py.zfill 2 (Py.str (col "STATEFP" r)).
Proof. apply resolve_ok_match. Qed.

Lemma resolve_state_answer_is_a_record_witness :
  ∃ r, r ∈ rows Grid.states
       ∧ (name_is (Py.strip "oh") r ∨ code_is (Py.strip "oh") r)
       ∧ "39" = Py.zfill 2 (Py.str (col "STATEFP" r)).
Proof.
  apply (resolve_state_answer_is_a_record Grid.states "oh" "39"). reflexivity.
Defined.

(** X3: [build_boundary] strips its value first and uses nothing else of
    it, so a value and its stripped form give the same run: the same
    outcome, the same printed lines. *)
Theorem build_boundary_ignores_padding `{Platform}
    (boundary_type boundary_value states_shp counties_shp : string)
    (w : World) :
  build_boundary boundary_type (Py.strip boundary_value) states_shp
    counties_shp w
  = build_boundary boundary_type boundary_value states_shp counties_shp w.
Proof. unfold build_boundary. by rewrite strip_strip. Qed.

(** ** More on boundary construction *)

Section BoundaryMore.
Context `{Platform}.
Implicit Types (w : World) (e : exn).

Lemma dissolve_crs (gdf : GeoDataFrame) : crs (dissolve gdf) = crs gdf.
Proof. unfold dissolve. by destruct (rows gdf). Qed.

Lemma select_nonempty (P : Feature → Prop) `{∀ r, Decision (P r)}
    (gdf : GeoDataFrame) r :
  r ∈ rows gdf → P r → empty (select P gdf) = false.
Proof.
  intros Hr HP. apply empty_false. simpl. intros Hnil.
  exact (filter_nil_not_elem_of _ _ r Hnil HP Hr).
Qed.

Lemma select_empty (P : Feature → Prop) `{∀ r, Decision (P r)}
    (gdf : GeoDataFrame) :
  Forall (λ r, ¬ P r) (rows gdf) → empty (select P gdf) = true.
Proof.
  intros Hnone. apply empty_true. simpl. apply (proj2 (filter_none _ _) Hnone).
Qed.

End BoundaryMore.

(** X4: in state mode the selection is made with the padded code the
    resolver returned.  When every record carries a STATEFP of at least
    two characters the record that resolved the text is selected, so the
    build succeeds whenever the resolver does.  When no record carries
    the padded code (a file whose codes lost their leading zero), the
    build raises the no-state error although the text was resolved.  An
    error of the resolver is passed on unchanged. *)
Theorem state_mode_selects_by_padded_code `{Platform}
    (boundary_type boundary_value states_shp counties_shp : string)
    (w : World) (states : GeoDataFrame) :
  Py.strip (Py.lower boundary_type) = "state" →
  disk w !! states_shp = Some states →
  let value := Py.strip boundary_value in
  let outcome :=
    (build_boundary boundary_type boundary_value states_shp counties_shp w).1 in
  ((∀ r, r ∈ rows states →
         ∃ code, col "STATEFP" r = Some code ∧ 2 ≤ Py.len code) →
   ∀ fips, resolve_state_fips states value = Ok fips →
           outcome = Ok (dissolve (select (statefp_is fips) states)))
  ∧ (∀ fips, resolve_state_fips states value = Ok fips →
             Forall (λ r, ¬ statefp_is fips r) (rows states) →
             outcome = Raise (no_state_found value))
  ∧ (∀ e, resolve_state_fips states value = Raise e → outcome = Raise e).
Proof.
  intros Hty Hd value outcome. unfold outcome.
  rewrite (build_boundary_state _ _ _ _ _ Hty), Hd. fold value.
  split; [|split].
  - intros Hwide fips Hres. rewrite Hres.
    destruct (resolve_ok_match _ _ _ Hres) as (r & Hr & _ & Hfips).
    destruct (Hwide r Hr) as (code & Hcode & Hlen).
    rewrite Hcode in Hfips. simpl in Hfips.
    rewrite zfill_length in Hfips by done. subst fips.
    by rewrite (select_nonempty (statefp_is code) states r).
  - intros fips Hres Hnone. rewrite Hres.
    by rewrite (select_empty (statefp_is fips) states).
  - intros e Hres. by rewrite Hres.
Qed.

Lemma state_mode_selects_by_padded_code_witness :
  (build_boundary "state" "oh" "states.shp" "counties.shp" Samples.files).1
  = Ok (dissolve (select (statefp_is "39") Grid.states))
  ∧ (build_boundary "state" " AL " "short.shp" "counties.shp" Samples.files).1
    = Raise (no_state_found "AL").
Proof.
  split.
  - destruct (state_mode_selects_by_padded_code "state" "oh" "states.shp"
                "counties.shp" Samples.files Grid.states)
      as (Hwide & _); [reflexivity | reflexivity |].
    apply (Hwide); [|reflexivity].
    intros r Hr.
    repeat (apply elem_of_cons in Hr as [->|Hr];
            [eexists; split; [reflexivity | vm_compute; lia]|]).
    by apply not_elem_of_nil in Hr.
  - destruct (state_mode_selects_by_padded_code "state" " AL " "short.shp"
                "counties.shp" Samples.files Samples.states_short)
      as (_ & Hshort & _); [reflexivity | reflexivity |].
    apply (Hshort "01"); [reflexivity|].
    repeat constructor; vm_compute; discriminate.
Defined.

(** X5: [build_boundary] only reads: whatever the outcome, the datasets
    on disk, the platform state and the pending console input are as
    before, and the console only gains lines.  A boundary it returns
    carries the CRS of the dataset it was cut from. *)
Theorem build_boundary_only_reads `{Platform}
    (boundary_type boundary_value states_shp counties_shp : string)
    (w : World) :
  let run := build_boundary boundary_type boundary_value states_shp
               counties_shp w in
  disk run.2 = disk w ∧ os run.2 = os w ∧ stdin run.2 = stdin w
  ∧ (∃ lines, stdout run.2 = stdout w ++ lines)
  ∧ (∀ b, run.1 = Ok b →
          ∃ src, crs b = crs src
                 ∧ ((Py.strip (Py.lower boundary_type) = "state"
                     ∧ disk w !! states_shp = Some src)
                    ∨ (Py.strip (Py.lower boundary_type) = "fips"
                       ∧ disk w !! counties_shp = Some src))).
Proof.
  intros run. unfold run, build_boundary.
  destruct (decide (_ = "state")) as [Hst|Hst].
  - unfold mbind, M_bind, bind, read_file, lift.
    destruct (disk w !! states_shp) as [states|];
      [|simpl; repeat split; [by exists []; rewrite app_nil_r | done]].
    destruct (resolve_state_fips _ _);
      [|simpl; repeat split; [by exists []; rewrite app_nil_r | done]].
    destruct (empty _); simpl.
    + repeat split; [by exists []; rewrite app_nil_r | done].
    + repeat split; [by eexists|].
      intros b [= <-]. exists states. rewrite dissolve_crs. auto.
  - destruct (decide (_ = "fips")) as [Hf|Hf];
      [|simpl; repeat split; [by exists []; rewrite app_nil_r | done]].
    destruct (_ || _);
      [simpl; repeat split; [by exists []; rewrite app_nil_r | done]|].
    unfold mbind, M_bind, bind, read_file.
    destruct (disk w !! counties_shp) as [counties|];
      [|simpl; repeat split; [by exists []; rewrite app_nil_r | done]].
    destruct (empty _); simpl.
    + repeat split; [by exists []; rewrite app_nil_r | done].
    + repeat split; [by eexists|].
      intros b [= <-]. exists counties. rewrite dissolve_crs. auto.
Qed.

Lemma build_boundary_only_reads_witness :
  let run := build_boundary "fips" "48113" "states.shp" "counties.shp"
               Grid.files in
  disk run.2 = disk Grid.files
  ∧ ∀ b, run.1 = Ok b → crs b = Some "EPSG:4269".
Proof.
  destruct (build_boundary_only_reads "fips" "48113" "states.shp"
              "counties.shp" Grid.files) as (Hdisk & _ & _ & _ & Hcrs).
  split; [exact Hdisk|].
  intros b Hb. destruct (Hcrs b Hb) as (src & -> & [[Hty _]|[_ Hsrc]]).
  - vm_compute in Hty. discriminate Hty.
  - vm_compute in Hsrc. by injection Hsrc as <-.
Defined.

(** X6: on a correctly loaded states file, state mode with any case
    variant of Texas or TX, padded or not, returns one feature that is
    the union of the records whose STATEFP is 48, the Texas record among
    them. *)
Theorem texas_boundary_from_reference `{Platform}
    (boundary_type boundary_value states_shp counties_shp : string)
    (w : World) (states : GeoDataFrame) :
  Py.strip (Py.lower boundary_type) = "state" →
  disk w !! states_shp = Some states →
  reference_states states →
  case_variant (Py.strip boundary_value) "Texas"
  ∨ case_variant (Py.strip boundary_value) "TX" →
  ∃ b tx,
    (build_boundary boundary_type boundary_value states_shp counties_shp w).1
    = Ok b
    ∧ single_union b (filter (statefp_is "48") (rows states))
    ∧ tx ∈ filter (statefp_is "48") (rows states) ∧ is_texas tx.
Proof.
  intros Hty Hd Href Hcv.
  assert (resolve_state_fips states (Py.strip boundary_value) = Ok "48") as Hres.
  { destruct Hcv as [Hcv|Hcv].
    - apply reference_texas_by_name; [done|]. by rewrite strip_strip.
    - apply reference_texas_by_code; [done|]. by rewrite strip_strip. }
  destruct Href as (_ & _ & _ & Htx).
  apply Exists_exists in Htx as (tx & Htx & Hname & Hcode & Hfp).
  rewrite (build_boundary_state _ _ _ _ _ Hty), Hd, Hres.
  rewrite (select_nonempty (statefp_is "48") states tx) by done.
  eexists _, tx. split; [done|]. split; [|split].
  - apply (dissolve_single_union (select (statefp_is "48") states)).
    simpl. intros Hnil. exact (filter_nil_not_elem_of _ _ tx Hnil Hfp Htx).
  - by apply list_elem_of_filter.
  - done.
Qed.

Lemma texas_boundary_from_reference_witness :
  ∃ b tx,
    (build_boundary " State" " tx " "states.shp" "counties.shp" Grid.files).1
    = Ok b
    ∧ single_union b (filter (statefp_is "48") (rows Grid.states))
    ∧ tx ∈ filter (statefp_is "48") (rows Grid.states) ∧ is_texas tx.
Proof.
  apply (texas_boundary_from_reference " State" " tx " "states.shp"
           "counties.shp" Grid.files Grid.states); try reflexivity.
  - apply (bool_decide_unpack _). vm_compute. exact I.
  - right. reflexivity.
Defined.

(** X7: [build_city_boundary] resolves the state before it retrieves
    anything: when the states file cannot be read or the state cannot be
    resolved it raises that error and the world, platform state
    included, is exactly as before. *)
Theorem city_boundary_fails_before_retrieval `{Platform}
    (city_name state_input states_shp : string) (w : World) :
  (disk w !! states_shp = None →
   build_city_boundary city_name state_input states_shp w
   = (Raise (DataSourceError (states_shp +:+ ": No such file or directory")), w))
  ∧ (∀ states e,
       disk w !! states_shp = Some states →
       resolve_state_fips states state_input = Raise e →
       build_city_boundary city_name state_input states_shp w = (Raise e, w)).
Proof.
  split.
  - intros Hd. unfold build_city_boundary, mbind, M_bind, bind, read_file.
    by rewrite Hd.
  - intros states e Hd Hres.
    unfold build_city_boundary.
    unfold mbind at 1 2. unfold M_bind, bind at 1 2. unfold read_file at 1.
    rewrite Hd. unfold lift. by rewrite Hres.
Qed.

Lemma city_boundary_fails_before_retrieval_witness :
  build_city_boundary "Dallas" "Zzzland" "states.shp" Grid.files
  = (Raise (unresolved_state "Zzzland"), Grid.files).
Proof.
  destruct (city_boundary_fails_before_retrieval "Dallas" "Zzzland"
              "states.shp" Grid.files) as [_ Hunresolved].
  apply (Hunresolved Grid.states); reflexivity.
Defined.

(** ** More on clipping *)

Section ClipMore.
Context `{Platform}.
Implicit Types (w : World) (base boundary : GeoDataFrame) (e : exn).

(** The outcome of a clip, and what it does to the disk, seen from two
    worlds that hold the same layer. *)
Lemma clip_effect layer_shp boundary_gdf output_path w1 w2 :
  disk w1 !! layer_shp = disk w2 !! layer_shp →
  let run1 := clip_layer_to_boundary layer_shp boundary_gdf output_path w1 in
  let run2 := clip_layer_to_boundary layer_shp boundary_gdf output_path w2 in
  run1.1 = run2.1
  ∧ ((∃ out, run1.1 = Ok ()
             ∧ disk run1.2 = <[output_path := out]> (disk w1)
             ∧ disk run2.2 = <[output_path := out]> (disk w2))
     ∨ (∃ e, run1.1 = Raise e
             ∧ disk run1.2 = disk w1 ∧ disk run2.2 = disk w2)).
Proof.
  intros Hlayer run1 run2. unfold run1, run2, clip_layer_to_boundary.
  unfold mbind, M_bind, bind, print, read_file. simpl. rewrite Hlayer.
  destruct (disk w2 !! layer_shp) as [base|]; simpl; [|by eauto 10].
  destruct (decide _); simpl; [by eauto 10|].
  unfold lift. destruct (align_crs base boundary_gdf); simpl; by eauto 10.
Qed.

Lemma clip_frame layer_shp boundary_gdf output_path w path :
  path ≠ output_path →
  disk (clip_layer_to_boundary layer_shp boundary_gdf output_path w).2 !! path
  = disk w !! path.
Proof.
  intros Hne.
  destruct (clip_effect layer_shp boundary_gdf output_path w w eq_refl)
    as (_ & [(out & _ & -> & _)|(e & _ & -> & _)]); [|done].
  by apply lookup_insert_ne.
Qed.

Lemma clip_keeps_os_stdin layer_shp boundary_gdf output_path w :
  os (clip_layer_to_boundary layer_shp boundary_gdf output_path w).2 = os w
  ∧ stdin (clip_layer_to_boundary layer_shp boundary_gdf output_path w).2
    = stdin w.
Proof.
  unfold clip_layer_to_boundary.
  unfold mbind, M_bind, bind, print, read_file. simpl.
  destruct (disk w !! layer_shp) as [base|]; simpl; [|done].
  destruct (decide _); simpl; [done|].
  unfold lift. by destruct (align_crs base boundary_gdf).
Qed.

Lemma not_in_polygonish t : t ∈ lineish ∨ t ∈ pointish → t ∉ polygonish.
Proof.
  unfold lineish, pointish, polygonish.
  rewrite !elem_of_union, !elem_of_singleton.
  intros [[->| ->]|[->| ->]] [?|?]; discriminate.
Qed.

Lemma not_in_lineish t : t ∈ pointish → t ∉ lineish.
Proof.
  unfold lineish, pointish.
  rewrite !elem_of_union, !elem_of_singleton.
  intros [->| ->] [?|?]; discriminate.
Qed.

Lemma allowed_types_family base fam :
  fam = lineish ∨ fam = pointish →
  rows base ≠ [] →
  (∀ f, f ∈ rows base → geom_type (geometry f) ∈ fam) →
  allowed_types base = fam.
Proof.
  intros Hfam Hne Hall.
  destruct (rows base) as [|f0 l] eqn:Hrows; [done|].
  assert (geom_type (geometry f0) ∈ geom_types base) as Hin.
  { unfold geom_types. rewrite Hrows. apply elem_of_list_to_set. left. }
  assert (geom_types base ⊆ fam) as Hsub.
  { intros t Ht. unfold geom_types in Ht.
    apply elem_of_list_to_set, list_elem_of_fmap in Ht as (f & -> & Hf).
    apply Hall. by rewrite <- Hrows. }
  assert (geom_type (geometry f0) ∈ fam) as Hf0 by (apply Hall; left).
  unfold allowed_types.
  rewrite decide_False.
  2:{ intros Hpg. apply (not_in_polygonish (geom_type (geometry f0))); [|auto].
      destruct Hfam as [->| ->]; auto. }
  destruct Hfam as [->| ->].
  - by rewrite decide_True.
  - rewrite decide_False.
    2:{ intros Hln. apply (not_in_lineish (geom_type (geometry f0))); auto. }
    by rewrite decide_True.
Qed.

End ClipMore.

(** X8: a layer holding only lines (LineString, MultiLineString) is
    written out with lines only, and a layer holding only points (Point,
    MultiPoint) with points only, whatever type the engine gives the
    intersections. *)
Theorem line_and_point_layers_keep_their_family `{Platform}
    (layer_shp output_path : string) (boundary_gdf base : GeoDataFrame)
    (w : World) (c cb : string) (fam : gset string) :
  disk w !! layer_shp = Some base →
  crs base = Some c →
  crs boundary_gdf = Some cb →
  fam = lineish ∨ fam = pointish →
  (∀ f, f ∈ rows base → geom_type (geometry f) ∈ fam) →
  ∃ w' out,
    clip_layer_to_boundary layer_shp boundary_gdf output_path w = (Ok (), w')
    ∧ disk w' !! output_path = Some out
    ∧ ∀ f, f ∈ rows out → geom_type (geometry f) ∈ fam.
Proof.
  intros Hd Hc Hcb Hfam Hall.
  destruct (clip_ok layer_shp boundary_gdf output_path w base c cb Hd Hc Hcb)
    as (w' & b & Hrun & Hb & Hdisk & _).
  eexists w', _. split; [done|]. split.
  { rewrite Hdisk. apply lookup_insert_eq. }
  intros f Hf. cbn [rows select] in Hf.
  apply list_elem_of_filter in Hf as [Hty Hf].
  destruct (rows base) as [|f0 l] eqn:Hrows.
  - unfold gpd_clip in Hf. rewrite Hrows in Hf. simpl in Hf.
    by apply not_elem_of_nil in Hf.
  - unfold type_isin in Hty.
    rewrite (allowed_types_family base fam) in Hty; try done.
    + by rewrite Hrows.
    + by rewrite Hrows.
Qed.

Lemma line_and_point_layers_keep_their_family_witness :
  (∃ w' out,
     clip_layer_to_boundary "roads.shp" Grid.texas_boundary "out.shp"
       Samples.files = (Ok (), w')
     ∧ disk w' !! "out.shp" = Some out
     ∧ ∀ f, f ∈ rows out → geom_type (geometry f) ∈ lineish)
  ∧ (∃ w' out,
       clip_layer_to_boundary "stops.shp" Grid.texas_boundary "out.shp"
         Samples.files = (Ok (), w')
       ∧ disk w' !! "out.shp" = Some out
       ∧ ∀ f, f ∈ rows out → geom_type (geometry f) ∈ pointish).
Proof.
  split.
  - apply (line_and_point_layers_keep_their_family "roads.shp" "out.shp"
             Grid.texas_boundary Grid.roads Samples.files
             "EPSG:4269" "EPSG:4269" lineish); try reflexivity; [by left|].
    intros f Hf.
    repeat (apply elem_of_cons in Hf as [->|Hf]; [by_evaluation|]).
    by apply not_elem_of_nil in Hf.
  - apply (line_and_point_layers_keep_their_family "stops.shp" "out.shp"
             Grid.texas_boundary Samples.stops Samples.files
             "EPSG:4269" "EPSG:4269" pointish); try reflexivity; [by right|].
    intros f Hf.
    repeat (apply elem_of_cons in Hf as [->|Hf]; [by_evaluation|]).
    by apply not_elem_of_nil in Hf.
Defined.

(** X9: a clip touches one dataset only: whatever its outcome, every
    path other than the output path holds what it held before, and the
    platform state and the pending console input are unchanged. *)
Theorem clip_touches_only_its_output `{Platform}
    (layer_shp output_path path : string) (boundary_gdf : GeoDataFrame)
    (w : World) :
  path ≠ output_path →
  let run := clip_layer_to_boundary layer_shp boundary_gdf output_path w in
  disk run.2 !! path = disk w !! path
  ∧ os run.2 = os w ∧ stdin run.2 = stdin w.
Proof.
  intros Hne run. split; [by apply clip_frame | apply clip_keeps_os_stdin].
Qed.

Lemma clip_touches_only_its_output_witness :
  let run := clip_layer_to_boundary "roads.shp" Grid.texas_boundary
               "counties.shp" Grid.files in
  disk run.2 !! "roads.shp" = Some Grid.roads
  ∧ os run.2 = os Grid.files ∧ stdin run.2 = stdin Grid.files.
Proof.
  apply (clip_touches_only_its_output "roads.shp" "counties.shp" "roads.shp"
           Grid.texas_boundary Grid.files).
  discriminate.
Defined.

(** X10: the outcome of a clip is decided by two tests made in this
    order: the layer cannot be read, then a read error; the layer or the
    boundary has no CRS, then the missing-CRS error; otherwise success.
    In particular the reprojection of the boundary never fails, and a
    missing layer is reported even when the boundary has no CRS. *)
Theorem clip_outcome `{Platform}
    (layer_shp output_path : string) (boundary_gdf : GeoDataFrame) (w : World) :
  (clip_layer_to_boundary layer_shp boundary_gdf output_path w).1
  = match disk w !! layer_shp with
    | None =>
        Raise (DataSourceError (layer_shp +:+ ": No such file or directory"))
    | Some base =>
        match crs base, crs boundary_gdf with
        | Some _, Some _ => Ok ()
        | _, _ => Raise missing_crs
        end
    end.
Proof.
  destruct (disk w !! layer_shp) as [base|] eqn:Hd.
  - destruct (crs base) as [c|] eqn:Hc, (crs boundary_gdf) as [cb|] eqn:Hcb.
    + destruct (clip_ok layer_shp boundary_gdf output_path w base c cb Hd Hc Hcb)
        as (w' & b & -> & _). done.
    + unfold clip_layer_to_boundary.
      unfold mbind, M_bind, bind, print, read_file. simpl. rewrite Hd. simpl.
      rewrite decide_True; [done | by right].
    + unfold clip_layer_to_boundary.
      unfold mbind, M_bind, bind, print, read_file. simpl. rewrite Hd. simpl.
      rewrite decide_True; [done | by left].
    + unfold clip_layer_to_boundary.
      unfold mbind, M_bind, bind, print, read_file. simpl. rewrite Hd. simpl.
      rewrite decide_True; [done | by left].
  - unfold clip_layer_to_boundary.
    unfold mbind, M_bind, bind, print, read_file. simpl. by rewrite Hd.
Qed.

(** X11: a clip adds no features: the dataset written has at most as
    many rows as the layer, and when no feature of the layer meets the
    boundary (taken in the layer's CRS) the output is still written, with
    no rows. *)
Theorem clip_never_adds_features `{Platform}
    (layer_shp output_path : string) (boundary_gdf base : GeoDataFrame)
    (w : World) (c cb : string) :
  disk w !! layer_shp = Some base →
  crs base = Some c →
  crs boundary_gdf = Some cb →
  let mask := unary_union
                ((if decide (c = cb) then id else transform cb c)
                   <$> (geometry <$> rows boundary_gdf)) in
  ∃ w' out,
    clip_layer_to_boundary layer_shp boundary_gdf output_path w = (Ok (), w')
    ∧ disk w' !! output_path = Some out
    ∧ length (rows out) ≤ length (rows base)
    ∧ ((∀ f, f ∈ rows base → intersects (geometry f) mask = false) →
       rows out = []).
Proof.
  intros Hd Hc Hcb mask.
  destruct (clip_ok layer_shp boundary_gdf output_path w base c cb Hd Hc Hcb)
    as (w' & b & Hrun & Hb & Hdisk & _).
  destruct (align_crs_ok base boundary_gdf c cb Hc Hcb) as (b' & Hb' & _ & Hgeo).
  assert (b' = b) as -> by congruence.
  eexists w', _. split; [done|]. split.
  { rewrite Hdisk. apply lookup_insert_eq. }
  cbn [rows select gpd_clip]. rewrite Hgeo. fold mask. split.
  - etrans; [apply length_filter|]. rewrite length_fmap. apply length_filter.
  - intros Hnone.
    assert (filter (λ r : Feature, intersects (geometry r) mask) (rows base) = [])
      as ->; [|done].
    apply filter_none, Forall_forall. intros f Hf Hmeets.
    rewrite (Hnone f Hf) in Hmeets. exact Hmeets.
Qed.

Lemma clip_never_adds_features_witness :
  ∃ w' out,
    clip_layer_to_boundary "roads.shp" Samples.far_boundary "out.shp"
      Samples.files = (Ok (), w')
    ∧ disk w' !! "out.shp" = Some out
    ∧ length (rows out) ≤ 3
    ∧ rows out = [].
Proof.
  destruct (clip_never_adds_features "roads.shp" "out.shp" Samples.far_boundary
              Grid.roads Samples.files "EPSG:4269" "EPSG:4269")
    as (w' & out & Hrun & Hout & Hlen & Hnone); try reflexivity.
  exists w', out. split; [exact Hrun|]. split; [exact Hout|].
  split; [exact Hlen|]. apply Hnone.
  intros f Hf.
  repeat (apply elem_of_cons in Hf as [->|Hf]; [reflexivity|]).
  by apply not_elem_of_nil in Hf.
Defined.

(** X12: step 4 of [main] changes at most the two clipped outputs: any
    other path on disk holds afterwards what it held before, whether the
    clips succeeded or not. *)
Theorem step4_touches_only_the_outputs `{Platform}
    (roads_shp counties_shp path : string) (boundary : GeoDataFrame)
    (w : World) :
  path ≠ OsPath.join CLIPPED_FOLDER "roads_clipped.shp" →
  path ≠ OsPath.join CLIPPED_FOLDER "counties_clipped.shp" →
  disk (main_clip_layers roads_shp counties_shp boundary w).2 !! path
  = disk w !! path.
Proof.
  intros Hr Hc. rewrite main_clip_layers_run.
  set (groads := try_except _ _ w).
  destruct (guarded_clip "Error clipping counties: " counties_shp boundary
              (OsPath.join CLIPPED_FOLDER "counties_clipped.shp") groads.2)
    as (_ & -> & _).
  rewrite clip_frame by done. unfold groads.
  destruct (guarded_clip "Error clipping roads: " roads_shp boundary
              (OsPath.join CLIPPED_FOLDER "roads_clipped.shp") w)
    as (_ & -> & _).
  by rewrite clip_frame.
Qed.

Lemma step4_touches_only_the_outputs_witness :
  disk (main_clip_layers "roads.shp" "counties.shp" Grid.texas_boundary
          Grid.files).2 !! "counties.shp"
  = Some Grid.counties.
Proof.
  apply (step4_touches_only_the_outputs "roads.shp" "counties.shp"
           "counties.shp" Grid.texas_boundary Grid.files);
    vm_compute; discriminate.
Defined.

(** X13: two clips against the same boundary do not depend on their
    order: when neither reads the other's output and the outputs differ,
    running them one way or the other gives each the same outcome and
    leaves the same datasets on disk. *)
Theorem clips_commute `{Platform}
    (layer1 out1 layer2 out2 : string) (boundary : GeoDataFrame) (w : World) :
  layer1 ≠ out2 → layer2 ≠ out1 → out1 ≠ out2 →
  let clip1 := clip_layer_to_boundary layer1 boundary out1 in
  let clip2 := clip_layer_to_boundary layer2 boundary out2 in
  (clip2 (clip1 w).2).1 = (clip2 w).1
  ∧ (clip1 (clip2 w).2).1 = (clip1 w).1
  ∧ disk (clip2 (clip1 w).2).2 = disk (clip1 (clip2 w).2).2.
Proof.
  intros H12 H21 Hout clip1 clip2.
  assert (disk w !! layer2 = disk (clip1 w).2 !! layer2) as Hl2
    by (symmetry; by apply clip_frame).
  assert (disk w !! layer1 = disk (clip2 w).2 !! layer1) as Hl1
    by (symmetry; by apply clip_frame).
  destruct (clip_effect layer2 boundary out2 w (clip1 w).2 Hl2)
    as (Hsame2 & Hdisk2).
  destruct (clip_effect layer1 boundary out1 w (clip2 w).2 Hl1)
    as (Hsame1 & Hdisk1).
  fold clip1 clip2 in Hsame1, Hsame2, Hdisk1, Hdisk2.
  split; [done|]. split; [done|].
  destruct Hdisk2 as [(o2 & _ & Hw2 & Hw12)|(e2 & _ & Hw2 & Hw12)];
    destruct Hdisk1 as [(o1 & _ & Hw1 & Hw21)|(e1 & _ & Hw1 & Hw21)];
    rewrite Hw12, Hw21, Hw1, Hw2; [|done..].
  by apply insert_insert_ne.
Qed.

Lemma clips_commute_witness :
  let clip1 := clip_layer_to_boundary "roads.shp" Grid.texas_boundary "r.shp" in
  let clip2 := clip_layer_to_boundary "counties.shp" Grid.texas_boundary "c.shp" in
  (clip2 (clip1 Grid.files).2).1 = (clip2 Grid.files).1
  ∧ (clip1 (clip2 Grid.files).2).1 = (clip1 Grid.files).1
  ∧ disk (clip2 (clip1 Grid.files).2).2 = disk (clip1 (clip2 Grid.files).2).2.
Proof.
  apply (clips_commute "roads.shp" "r.shp" "counties.shp" "c.shp"
           Grid.texas_boundary Grid.files); discriminate.
Defined.

(** ** Retrieval and extraction *)

Section RetrievalMore.
Context `{Platform}.
Implicit Types (w : World) (e : exn).

Lemma first_shp_none root files :
  first_shp root files = None ↔ Forall (λ f, is_shp f = false) files.
Proof.
  induction files as [|f files IH]; simpl.
  - split; [constructor | done].
  - fold (is_shp f). destruct (is_shp f) eqn:Hf.
    + split; [done|]. intros Hall. apply Forall_cons in Hall as [? _]. congruence.
    + rewrite IH. split; [by constructor|]. by intros [_ ?]%Forall_cons.
Qed.

Lemma first_shp_some root files p :
  first_shp root files = Some p →
  ∃ pre f post,
    files = pre ++ f :: post ∧ Forall (λ g, is_shp g = false) pre
    ∧ is_shp f = true ∧ p = OsPath.join root f.
Proof.
  induction files as [|f files IH]; simpl; [done|].
  fold (is_shp f). destruct (is_shp f) eqn:Hf.
  - intros [= <-]. exists [], f, files. by repeat split.
  - intros Hrest. destruct (IH Hrest) as (pre & g & post & -> & Hpre & Hg & ->).
    exists (f :: pre), g, post. repeat split; try done. by constructor.
Qed.

Lemma first_shp_in_none walked :
  first_shp_in walked = None
  ↔ Forall (λ d, Forall (λ f, is_shp f = false) d.2) walked.
Proof.
  induction walked as [|[root files] walked IH]; simpl.
  - split; [constructor | done].
  - destruct (first_shp root files) as [p|] eqn:Hfirst.
    + split; [done|]. intros [Hnone _]%Forall_cons. simpl in Hnone.
      apply first_shp_none with (root := root) in Hnone. congruence.
    + rewrite IH. apply first_shp_none in Hfirst.
      split; [by constructor|]. by intros [_ ?]%Forall_cons.
Qed.

Lemma first_shp_in_some walked p :
  first_shp_in walked = Some p →
  ∃ before root files after pre f post,
    walked = before ++ (root, files) :: after
    ∧ Forall (λ d, Forall (λ f, is_shp f = false) d.2) before
    ∧ files = pre ++ f :: post
    ∧ Forall (λ g, is_shp g = false) pre
    ∧ is_shp f = true ∧ p = OsPath.join root f.
Proof.
  induction walked as [|[root files] walked IH]; simpl; [done|].
  destruct (first_shp root files) as [q|] eqn:Hfirst.
  - intros [= <-].
    destruct (first_shp_some _ _ _ Hfirst) as (pre & f & post & -> & ? & ? & ->).
    exists [], root, (pre ++ f :: post), walked, pre, f, post.
    by repeat split.
  - intros Hrest.
    destruct (IH Hrest)
      as (before & r & fs & after & pre & f & post & -> & ? & -> & ? & ? & ->).
    exists ((root, files) :: before), r, (pre ++ f :: post), after, pre, f, post.
    repeat split; try done. constructor; [|done].
    by apply first_shp_none in Hfirst.
Qed.

End RetrievalMore.

(** X14: [find_shapefile] returns the first file, in the order of the
    walk, whose name ends in .shp whatever the letter case, joined to its
    directory; it returns nothing exactly when no file of the walk has
    such a name; and it changes nothing. *)
Theorem find_shapefile_finds_first `{Platform} (folder : string) (w : World) :
  let walked := os_walk folder (os w) (disk w) in
  (find_shapefile folder w).2 = w
  ∧ ((find_shapefile folder w).1 = Ok None
     ↔ Forall (λ d, Forall (λ f, is_shp f = false) d.2) walked)
  ∧ (∀ p, (find_shapefile folder w).1 = Ok (Some p) →
          ∃ before root files after pre f post,
            walked = before ++ (root, files) :: after
            ∧ Forall (λ d, Forall (λ f, is_shp f = false) d.2) before
            ∧ files = pre ++ f :: post
            ∧ Forall (λ g, is_shp g = false) pre
            ∧ is_shp f = true ∧ p = OsPath.join root f).
Proof.
  intros walked.
  assert (find_shapefile folder w = (Ok (first_shp_in walked), w)) as -> by done.
  simpl. split; [done|]. split.
  - rewrite <- first_shp_in_none. split; [by intros [= ->] | by intros ->].
  - intros p [= Hp]. by apply first_shp_in_some.
Qed.

Lemma find_shapefile_finds_first_witness :
  (find_shapefile "downloads/states" Samples.offline_world).1
  = Ok (Some "downloads/states/data/TL_STATE.SHP")
  ∧ ∃ before root files after pre f post,
      os_walk "downloads/states" (os Samples.offline_world)
        (disk Samples.offline_world)
      = before ++ (root, files) :: after
      ∧ Forall (λ d, Forall (λ f, is_shp f = false) d.2) before
      ∧ files = pre ++ f :: post
      ∧ Forall (λ g, is_shp g = false) pre
      ∧ is_shp f = true
      ∧ "downloads/states/data/TL_STATE.SHP" = OsPath.join root f.
Proof.
  split; [reflexivity|].
  apply (find_shapefile_finds_first "downloads/states" Samples.offline_world).
  reflexivity.
Defined.

(** X15: [unzip_zip] never consumes console input.  A path it returns
    is not empty and is the one [find_shapefile] finds in the extraction
    folder in the world it leaves.  When it raises, either the
    extraction raised that error or nothing ending in .shp was found and
    the error is its FileNotFoundError naming the folder and the
    archive. *)
Theorem unzip_zip_outcome `{Platform} (name zip_path : string) (w : World) :
  let folder := OsPath.join DOWNLOAD_FOLDER name in
  let run := unzip_zip name zip_path w in
  stdin run.2 = stdin w
  ∧ (∀ path, run.1 = Ok path →
             path ≠ ""
             ∧ (find_shapefile folder run.2).1 = Ok (Some path))
  ∧ (∀ e, run.1 = Raise e →
          (zip_extractall zip_path folder (os w) (disk w)).1.1 = Raise e
          ∨ e = FileNotFoundError
                  ("No .shp found in " +:+ folder +:+ " for " +:+ name)).
Proof.
  intros folder run. unfold run, unzip_zip. fold folder.
  unfold mbind, M_bind, bind, print, extractall, find_shapefile, walk, mret,
    M_ret, ret, raise. simpl.
  destruct (zip_extractall zip_path folder (os w) (disk w)) as [[r s] d] eqn:Hx.
  simpl. destruct r as [[]|e0]; simpl.
  - destruct (first_shp_in (os_walk folder s d)) as [p|] eqn:Hfound; simpl.
    + destruct (decide (p = "")) as [->|Hne]; simpl.
      * split; [done|]. split; [done|]. intros e [= <-]. by right.
      * split; [done|]. split; [|done].
        intros path [= <-]. split; [done|]. by rewrite Hfound.
    + split; [done|]. split; [done|]. intros e [= <-]. by right.
  - split; [done|]. split; [done|]. intros e [= <-]. by left.
Qed.

Lemma unzip_zip_outcome_witness :
  let run := unzip_zip "states" "downloads/states.zip" Samples.offline_world in
  "GIS_Project_Starter/downloads/states/data/TL_STATE.SHP" ≠ ""
  ∧ (find_shapefile (OsPath.join DOWNLOAD_FOLDER "states") run.2).1
    = Ok (Some "GIS_Project_Starter/downloads/states/data/TL_STATE.SHP").
Proof.
  apply (unzip_zip_outcome "states" "downloads/states.zip"
           Samples.offline_world).
  reflexivity.
Defined.

Lemma prefix_slash c x :
  String.prefix "/" (String c x) = bool_decide ("/"%char = c).
Proof.
  change (String.prefix "/" (String c x))
    with (match Ascii.ascii_dec "/" c with
          | left _ => String.prefix "" x
          | right _ => false
          end).
  destruct (Ascii.ascii_dec "/" c) as [Heq|Hne].
  - rewrite bool_decide_eq_true_2 by done. by destruct x.
  - by rewrite bool_decide_eq_false_2.
Qed.

(** the archive of a name that does not start with a slash lies in the
    download folder *)
Lemma archive_path_relative name :
  Py.startswith name "/" = false →
  OsPath.join DOWNLOAD_FOLDER (name +:+ ".zip")
  = "GIS_Project_Starter/downloads/" +:+ name +:+ ".zip".
Proof.
  intros Hrel.
  assert (Py.startswith (name +:+ ".zip") "/" = false) as Hrel'.
  { unfold Py.startswith in *. destruct name as [|c name]; [done|].
    change (String c name +:+ ".zip") with (String c (name +:+ ".zip")).
    rewrite prefix_slash in *. done. }
  unfold OsPath.join. rewrite Hrel'.
  assert (String.eqb DOWNLOAD_FOLDER "" || Py.endswith DOWNLOAD_FOLDER "/"
          = false) as -> by reflexivity.
  reflexivity.
Qed.

(** X16: [download_zip] never touches the vector datasets or the
    console input, and a path it returns is always the archive's place
    in the download folder.  When the archive is already there it is
    returned without any request being made: the platform state is
    unchanged.  When it is not there and the request fails, that error
    is raised. *)
Theorem download_zip_outcome `{Platform} (name url : string) (w : World) :
  let local_path := OsPath.join DOWNLOAD_FOLDER (name +:+ ".zip") in
  let run := download_zip name url w in
  disk run.2 = disk w ∧ stdin run.2 = stdin w
  ∧ (∀ path, run.1 = Ok path → path = local_path)
  ∧ (os_path_exists local_path (os w) = true →
     run.1 = Ok local_path ∧ os run.2 = os w)
  ∧ (os_path_exists local_path (os w) = false →
     ∀ e, (http_download url local_path (os w)).1 = Raise e →
          run.1 = Raise e)
  ∧ (Py.startswith name "/" = false →
     local_path = "GIS_Project_Starter/downloads/" +:+ name +:+ ".zip").
Proof.
  intros local_path run. unfold run, download_zip. fold local_path.
  unfold mbind, M_bind, bind, print, path_exists, requests_get_to, mret,
    M_ret, ret, with_os. simpl.
  destruct (os_path_exists local_path (os w)) eqn:Hex; simpl.
  - repeat split; try done.
    + by intros path [= <-].
    + apply archive_path_relative.
  - destruct (http_download url local_path (os w)) as [[[]|e0] s] eqn:Hget;
      simpl.
    + repeat split; try done.
      * by intros path [= <-].
      * apply archive_path_relative.
    + repeat split; try done.
      * intros _ e He. by injection He as ->.
      * apply archive_path_relative.
Qed.

Lemma download_zip_outcome_witness :
  (download_zip "states" (LAYER_URLS !!! "states") Grid.files).1
  = Ok "GIS_Project_Starter/downloads/states.zip"
  ∧ os (download_zip "states" (LAYER_URLS !!! "states") Grid.files).2
    = os Grid.files
  ∧ (download_zip "states" (LAYER_URLS !!! "states")
       Samples.offline_world).1
    = Raise (HTTPError ("404 Client Error: " +:+ (LAYER_URLS !!! "states"))).
Proof.
  destruct (download_zip_outcome "states" (LAYER_URLS !!! "states") Grid.files)
    as (_ & _ & _ & Hcached & _).
  destruct (download_zip_outcome "states" (LAYER_URLS !!! "states")
              Samples.offline_world) as (_ & _ & _ & _ & Hfails & _).
  destruct Hcached as [Hpath Hos]; [reflexivity|].
  split; [exact Hpath|]. split; [exact Hos|].
  apply Hfails; reflexivity.
Defined.
